(** * Switchable heterogeneous processors (configs/martian/switchable_hetproc.py)

    A shallow embedding of the three processor classes of
    [switchable_hetproc.py] and the properties of their switch protocol.

    Python objects are mutable and shared: the same core object sits in a
    configuration list, in the list of current cores and in the pair list
    handed to [m5.switchCpus].  Cores are therefore kept in a store indexed
    by object identity ([Heap]); every list of the source is a list of
    references ([handle]) into that store, and a method is a function from
    the store before the call to the outcome and the store after it. *)

From Stdlib Require Import String.
From Stdlib Require Import List Bool Arith ZArith Lia.
Import ListNotations.

Set Warnings "-register-all".

(** ** Python values used by the classes *)

(** The exceptions the methods can leave with.  [AssertionError] is what the
    source raises itself (with its message; a bare [assert] has none);
    [IndexError] is the subscript of an empty list; [AttributeError] is
    [.values()] asked of a core list, [TypeError] the call of a core list;
    [NameError] is the use of a name that the module neither defines nor
    imports; [SubstrateError] stands for whatever [m5.switchCpus] raises
    when the swap does not take place. *)
Inductive exn : Type :=
| AssertionError (msg : string)
| IndexError
| AttributeError
| TypeError
| NameError (name : string)
| SubstrateError.

(** Modelled from the spec: the instruction-set identity of a core
    ([gem5.isas.ISA], not among the sources); only its equality matters. *)
Inductive ISA : Type := NULL | ARM | MIPS | POWER | RISCV | SPARC | X86.

Definition ISA_eq_dec (a b : ISA) : {a = b} + {a <> b}.
Proof. decide equality. Defined.

(** The memory modes of a board ([gem5.components.boards.mem_mode.MemMode],
    not among the sources): the two the source names, [ATOMIC] and
    [ATOMIC_NONCACHING], and [TIMING]. *)
Module MemMode.
Inductive t : Type := TIMING | ATOMIC | ATOMIC_NONCACHING.

Definition eqb (a b : t) : bool :=
  match a, b with
  | TIMING, TIMING | ATOMIC, ATOMIC | ATOMIC_NONCACHING, ATOMIC_NONCACHING => true
  | _, _ => false
  end.
End MemMode.


(** Modelled from the spec: a simulated object with the sub-objects it owns
    (gem5's SimObject tree, not among the sources).  Each object carries the
    index of the timeline (event queue) it runs on; index 0 is the shared
    default timeline. *)
Inductive SimObject : Type :=
| SimObj (eventq_index : nat) (children : list SimObject).

Definition eventq_index (o : SimObject) : nat :=
  match o with SimObj i _ => i end.

Definition children (o : SimObject) : list SimObject :=
  match o with SimObj _ cs => cs end.

(** [obj.descendants()]: the object itself, then the descendants of each of
    its children. *)
Fixpoint descendants (o : SimObject) : list SimObject :=
  match o with
  | SimObj _ cs => o :: flat_map descendants cs
  end.

(** The objects strictly below [o]. *)
Definition sub_objects (o : SimObject) : list SimObject :=
  flat_map descendants (children o).

(** [for obj in o.descendants(): obj.eventq_index = 0] *)
Fixpoint zero_descendants (o : SimObject) : SimObject :=
  match o with
  | SimObj _ cs => SimObj 0 (map zero_descendants cs)
  end.

(** [o.eventq_index = i] *)
Definition set_eventq_index (i : nat) (o : SimObject) : SimObject :=
  SimObj i (children o).

(** Modelled from the spec: the core handle (gem5's BaseCPUCore, not among
    the sources): its instruction set, whether it is a KVM (accelerated)
    core, its switched-out flag and the simulated model it wraps.  A handle
    wraps one model and a model is wrapped by one handle. *)
Record BaseCPUCore : Type := mkCore {
  core_isa : ISA;
  core_kvm : bool;
  switched_out : bool;
  simobject : SimObject
}.

(** A reference to a core object. *)
Definition handle : Type := nat.

(** The store of core objects. *)
Definition Heap : Type := handle -> BaseCPUCore.

Definition update (h : handle) (f : BaseCPUCore -> BaseCPUCore) (s : Heap) : Heap :=
  fun x => if Nat.eqb x h then f (s x) else s x.

(** [core.get_isa()] *)
Definition get_isa (s : Heap) (core : handle) : ISA := core_isa (s core).

(** [core.is_kvm_core()] *)
Definition is_kvm_core (s : Heap) (core : handle) : bool := core_kvm (s core).

(** [core.get_simobject()] *)
Definition get_simobject (s : Heap) (core : handle) : SimObject := simobject (s core).

(** Modelled from the spec: [core.set_switched_out(value)] changes the
    switched-out flag of the core and nothing else. *)
Definition set_switched_out (core : handle) (value : bool) (s : Heap) : Heap :=
  update core (fun c => mkCore (core_isa c) (core_kvm c) value (simobject c)) s.

(** A write to the simulated model of a core. *)
Definition map_simobject (core : handle) (f : SimObject -> SimObject) (s : Heap) : Heap :=
  update core (fun c => mkCore (core_isa c) (core_kvm c) (switched_out c) (f (simobject c))) s.

(** [Dict[str, List[BaseCPUCore]]]: a Python dictionary keeps its entries in
    insertion order, and [incorporate_processor] numbers the KVM cores in
    that order, so the dictionary is the list of its items. *)
Definition Dict : Type := list (string * list handle).

(** [d.keys()], [d.values()], [d.items()] *)
Definition keys (d : Dict) : list string := map fst d.
Definition values (d : Dict) : list (list handle) := map snd d.

(** [d[k]]; [None] when [k not in d.keys()] *)
Fixpoint lookup (k : string) (d : Dict) : option (list handle) :=
  match d with
  | [] => None
  | (k', v) :: d' => if String.eqb k k' then Some v else lookup k d'
  end.

(** [core in l], on object identity *)
Definition mem (core : handle) (l : list handle) : bool :=
  existsb (Nat.eqb core) l.

(** [l1 == l2] on lists of core objects *)
Definition list_eqb (l1 l2 : list handle) : bool :=
  if list_eq_dec Nat.eq_dec l1 l2 then true else false.

(** What line 81, [setattr(self, name, core_list)], has bound [name] to when
    the loop over the items of [d] is over: the core list of the
    configuration of that name, if there is one (the last one, should a list
    of items repeat the name, which the items of a Python dictionary never
    do). *)
Fixpoint bound (name : string) (d : Dict) : option (list handle) :=
  match d with
  | [] => None
  | (k, v) :: d' =>
      match bound name d' with
      | Some l => Some l
      | None => if String.eqb name k then Some v else None
      end
  end.

(** What an attribute of the processor object is bound to: the object the
    class itself binds it to, or the core list of the configuration of that
    name, bound by line 81. *)
Inductive attr (A : Type) : Type :=
| Own (a : A)
| Rebound (core_list : list handle).

Arguments Own {A} a.
Arguments Rebound {A} core_list.

(** [enumerate(l)] *)
Definition enumerate {A : Type} (l : list A) : list (nat * A) :=
  combine (seq 0 (length l)) l.

(** Modelled from the spec: the board the processor is attached to (gem5's
    AbstractBoard, not among the sources).  It is the reference to the
    simulation substrate that the swap primitive is called with; the spec
    leaves open when the substrate fails, so the board carries that
    decision: [swap_refused board pairs s] tells whether the substrate fails
    to swap the pairs in store [s].  [is_ruby] is
    [board.get_cache_hierarchy().is_ruby()]. *)
Record AbstractBoard : Type := mkBoard {
  swap_refused : list (handle * handle) -> Heap -> bool;
  is_ruby : bool
}.

(** Modelled from the spec: the substrate's atomic swap primitive
    ([m5.switchCpus], not among the sources), called with what [self._board]
    is bound to and the (outgoing, incoming) pairs.  It is all-or-nothing:
    when it fails nothing has changed; on success every outgoing model has
    been switched out and then every incoming model has been switched in.
    Called with a core list where the board should be (the attribute
    [_board] of a processor with a configuration of that name, before
    incorporation), it has no substrate to turn to and fails. *)
Definition switchCpus (system : attr AbstractBoard) (cpuList : list (handle * handle))
  (s : Heap) : exn + Heap :=
  match system with
  | Rebound _ => inl SubstrateError
  | Own board =>
      if swap_refused board cpuList s then inl SubstrateError
      else
        let s1 := fold_left (fun s p => set_switched_out (fst p) true s) cpuList s in
        inr (fold_left (fun s p => set_switched_out (snd p) false s) cpuList s1)
  end.

(** [m5.objects.KvmVM()] *)
Inductive KvmVM : Type := mkKvmVM.

(** ** class SwitchableHetProcessor *)

Module SwitchableHetProcessor.

(** The attributes of a processor object that the methods of the class
    bind or read.  [_isa] is the instruction set handed to
    [AbstractProcessor.__init__] at line 76.  [_board] and [kvm_vm] are
    [None] as long as the object has no attribute of that name; each is
    bound by the class itself (lines 100 and 92) or, by line 81, to the core
    list of a configuration of that name.

    Line 81 binds every configuration name as an attribute of the object.
    A name that is one of the attributes above replaces what the attribute
    was bound to; so does the name of the method [_all_cores], which the
    attribute then hides.  Both end the constructor with an exception when
    the name is [_switchable_cores] or [_all_cores] (see [__init__]), so
    that in a processor that has been built [_switchable_cores] is the
    dictionary and [_all_cores] the method.  Any other name is an attribute
    that no method of the class reads, and is not kept here.  The methods
    below are the functions of the class, applied to the object.  What the
    base classes (gem5's AbstractProcessor and SimObject, which are not
    among the sources) keep under names of their own is not part of the
    record. *)
Record t : Type := mk {
  _isa : ISA;
  _current_cores : list handle;
  _switchable_cores : Dict;
  _prepare_kvm : bool;
  kvm_vm : option (attr KvmVM);
  _board : option (attr AbstractBoard)
}.

(** [self._all_cores()] *)
Definition _all_cores (self : t) : list handle :=
  concat (values (_switchable_cores self)).

(** Lines 82-83: [for core in core_list:
    core.set_switched_out(core not in self._current_cores)] *)
Definition mark_list (current : list handle) (core_list : list handle) (s : Heap) : Heap :=
  fold_left (fun s core => set_switched_out core (negb (mem core current)) s) core_list s.

(** Lines 81-83, one round of the loop over the items of the dictionary,
    on the list of current cores and the store: [setattr] binds the name to
    the core list, which replaces the list [self._current_cores] when the
    name is ["_current_cores"]; every core of the list is then flagged
    against the current cores as they are now. *)
Definition init_round (st : list handle * Heap) (item : string * list handle)
  : list handle * Heap :=
  let current := if String.eqb (fst item) "_current_cores" then snd item else fst st in
  (current, mark_list current (snd item) (snd st)).

(** Lines 78-83: the loop runs over the items of the dictionary of line 71,
    which [self._switchable_cores.items()] is evaluated to once, before the
    first round. *)
Definition init_loop (current : list handle) (d : Dict) (s : Heap) : list handle * Heap :=
  fold_left init_round d (current, s).

(** [len({core.get_isa() for core in cores})] *)
Definition isa_count (s : Heap) (cores : list handle) : nat :=
  length (nodup ISA_eq_dec (map (get_isa s) cores)).

(** [SwitchableHetProcessor.__init__(switchable_cores, starting_cores)].
    Lines 64-76 raise before anything is written.  After the loop of lines
    78-83, line 86 calls [self._all_cores()]: when a configuration is named
    ["_all_cores"] the attribute is a core list and the call raises
    TypeError; otherwise the generator asks [self._switchable_cores] for its
    [.values()], and when a configuration is named ["_switchable_cores"]
    that is a core list and the request raises AttributeError.  Both come
    after the loop has written the flags.  A configuration named
    ["_prepare_kvm"] leaves no trace: line 85 binds the attribute again, as
    line 92 does for ["kvm_vm"] when there is a KVM core.  The attribute
    [_board] is what line 81 has left it: nothing, or the core list of a
    configuration of that name. *)
Definition __init__ (switchable_cores : Dict) (starting_cores : string) (s : Heap)
  : (exn + t) * Heap :=
  match lookup starting_cores switchable_cores with
  | None =>
      (inl (AssertionError ("Key " ++ starting_cores ++
              " cannot be found in the switchable_processors dictionary.")%string), s)
  | Some current =>
      if negb (isa_count s current =? 1) then (inl (AssertionError ""), s)
      else
        match current with
        | [] => (inl IndexError, s)
        | core0 :: _ =>
            let st := init_loop current switchable_cores s in
            match bound "_all_cores" switchable_cores with
            | Some _ => (inl TypeError, snd st)
            | None =>
                match bound "_switchable_cores" switchable_cores with
                | Some _ => (inl AttributeError, snd st)
                | None =>
                    let prepare :=
                      existsb (is_kvm_core (snd st)) (concat (values switchable_cores)) in
                    (inr {| _isa := get_isa s core0;
                            _current_cores := fst st;
                            _switchable_cores := switchable_cores;
                            _prepare_kvm := prepare;
                            kvm_vm := if prepare then Some (Own mkKvmVM)
                                      else option_map Rebound (bound "kvm_vm" switchable_cores);
                            _board := option_map Rebound (bound "_board" switchable_cores) |},
                     snd st)
                end
            end
        end
  end.

(** Lines 108-111, one round of the loop over [enumerate(kvm_cores)] *)
Definition assign_eventq (s : Heap) (ic : nat * handle) : Heap :=
  let (i, core) := ic in
  let s1 := map_simobject core zero_descendants s in
  map_simobject core (set_eventq_index (i + 1)) s1.

(** [self.incorporate_processor(board)] *)
Definition incorporate_processor (board : AbstractBoard) (self : t) (s : Heap) : t * Heap :=
  let self' := {| _isa := _isa self;
                  _current_cores := _current_cores self;
                  _switchable_cores := _switchable_cores self;
                  _prepare_kvm := _prepare_kvm self;
                  kvm_vm := kvm_vm self;
                  _board := Some (Own board) |} in
  if _prepare_kvm self then
    let kvm_cores := filter (is_kvm_core s) (_all_cores self) in
    (self', fold_left assign_eventq (enumerate kvm_cores) s)
  else (self', s).

(** [self.get_num_cores()] *)
Definition get_num_cores (self : t) : nat := length (_current_cores self).

(** [self.get_cores()] *)
Definition get_cores (self : t) : list handle := _current_cores self.

(** [self.switch_to_processor(switchable_core_key)]: the outcome, the
    processor and the store after the call.  [hasattr(self, "_board")]
    holds as soon as the attribute is bound, to a board or to a core
    list. *)
Definition switch_to_processor (switchable_core_key : string) (self : t) (s : Heap)
  : (exn + unit) * t * Heap :=
  match _board self with
  | None => (inl (AssertionError "The processor has not been incorporated."), self, s)
  | Some system =>
      match lookup switchable_core_key (_switchable_cores self) with
      | None =>
          (inl (AssertionError ("Key " ++ switchable_core_key ++
                  " is not a key in the switchable_processor dictionary.")%string), self, s)
      | Some to_switch =>
          if list_eqb to_switch (_current_cores self) then
            (inl (AssertionError "Cannot swap current cores with the current cores"), self, s)
          else if negb (length to_switch =? length (_current_cores self)) then
            (inl (AssertionError ("The number of cores to swap in is not the same as the number " ++
                    "already swapped in. This is not allowed.")%string), self, s)
          else
            match switchCpus system (combine (_current_cores self) to_switch) s with
            | inl e => (inl e, self, s)
            | inr s' =>
                (inr tt,
                 {| _isa := _isa self;
                    _current_cores := to_switch;
                    _switchable_cores := _switchable_cores self;
                    _prepare_kvm := _prepare_kvm self;
                    kvm_vm := kvm_vm self;
                    _board := _board self |}, s')
            end
      end
  end.

End SwitchableHetProcessor.

(** ** class SwitchableProcessor *)

(** The base class of [SimpleSwitchableHetProcessor] is gem5's
    SwitchableProcessor, which is not among the sources. *)
Module SwitchableProcessor.

(** Modelled from the spec: the constructor of gem5's SwitchableProcessor,
    taken to build the processor of sections 3 and 4.2 as
    [SwitchableHetProcessor.__init__] does. *)
Definition __init__ : Dict -> string -> Heap -> (exn + SwitchableHetProcessor.t) * Heap :=
  SwitchableHetProcessor.__init__.

(** Modelled from the spec: the incorporation step of gem5's
    SwitchableProcessor (section 4.3), taken to be the one of
    [SwitchableHetProcessor]. *)
Definition incorporate_processor
  : AbstractBoard -> SwitchableHetProcessor.t -> Heap -> SwitchableHetProcessor.t * Heap :=
  SwitchableHetProcessor.incorporate_processor.

(** Modelled from the spec: the switch protocol of gem5's SwitchableProcessor
    (section 4.4), taken to be the one of [SwitchableHetProcessor]. *)
Definition switch_to_processor
  : string -> SwitchableHetProcessor.t -> Heap
    -> (exn + unit) * SwitchableHetProcessor.t * Heap :=
  SwitchableHetProcessor.switch_to_processor.

End SwitchableProcessor.

(** ** The two-configuration classes *)

(** The attributes [SimpleSwitchableHetProcessor] and
    [CoreSwitchableHetProcessor] add to those of their base class: the two
    configuration names, the flag telling whether the start configuration is
    the current one, and the memory mode. *)
Record TwoConfig : Type := mkTwoConfig {
  base : SwitchableHetProcessor.t;
  _start_key : string;
  _switch_key : string;
  _current_is_start : bool;
  _mem_mode : MemMode.t
}.

(** The store together with the next unused object identity: creating an
    object takes that identity. *)
Definition World : Type := (Heap * handle)%type.

(** The creation of one core object with initial attributes [c]. *)
Definition new_core (c : BaseCPUCore) (w : World) : handle * World :=
  (snd w, (update (snd w) (fun _ => c) (fst w), S (snd w))).

(** The creation of the core objects of a list comprehension, in order. *)
Fixpoint new_cores (cs : list BaseCPUCore) (w : World) : list handle * World :=
  match cs with
  | [] => ([], w)
  | c :: cs' =>
      let (h, w1) := new_core c w in
      let (hs, w2) := new_cores cs' w1 in
      (h :: hs, w2)
  end.

(** Lines 225-235 and 284-294, the same in both classes.  With a Ruby cache
    hierarchy and an atomic memory mode the branch is entered and calls
    [warn], a name the module neither defines nor imports (the wildcard
    import of line 47 brings in gem5's [overrides] decorator only): the call
    raises NameError, before line 234 (293) can assign [_mem_mode] and
    before [board.set_mem_mode] is reached.  Otherwise [self._mem_mode] is
    passed to [board.set_mem_mode]; that is a write to the board, which is
    not part of the store of cores, and the mode written is given as the
    result. *)
Definition negotiate_mem_mode (board : AbstractBoard) (m : MemMode.t) : exn + MemMode.t :=
  if is_ruby board && MemMode.eqb m MemMode.ATOMIC then inl (NameError "warn") else inr m.

Module SimpleSwitchableHetProcessor.

Section WithStdlib.

(** The CPU types and [get_mem_mode] are imported from gem5's standard
    library (lines 41-44) and are not among the sources: they are
    parameters. *)
Variable CPUTypes : Type.
Variable get_mem_mode : CPUTypes -> MemMode.t.

(** An entry [(start, switch, #cores)] of [core_types]. *)
Definition core_type : Type := (CPUTypes * CPUTypes * Z)%type.

(** Lines 186-190: [for c in core_types: if c[2] <= 0: raise AssertionError] *)
Fixpoint check_core_counts (core_types : list core_type) : option exn :=
  match core_types with
  | [] => None
  | c :: rest =>
      if (snd c <=? 0)%Z
      then Some (AssertionError "Number of cores must be a positive integer!")
      else check_core_counts rest
  end.

(** [sum([ct[2] for ct in core_types])] *)
Definition total_num_cores (core_types : list core_type) : Z :=
  fold_left Z.add (map snd core_types) 0%Z.

(** Lines 200-204: [config += [ct[j]] * ct[2]] for every entry *)
Definition config_of (proj : core_type -> CPUTypes) (core_types : list core_type)
  : list CPUTypes :=
  flat_map (fun ct => repeat (proj ct) (Z.to_nat (snd ct))) core_types.

(** [[SimpleCore(cpu_type=config[i], core_id=i, isa=isa) for i in range(n)]]:
    the initial attributes of the cores to create.  The module neither
    defines nor imports [SimpleCore] (the wildcard import of line 47 brings
    in gem5's [overrides] decorator only): the first round of the
    comprehension evaluates the name, before any of the arguments, and
    raises NameError; over an empty range nothing is evaluated. *)
Definition simple_cores (config : list CPUTypes) (isa : option ISA) (ids : list nat)
  : exn + list BaseCPUCore :=
  match ids with
  | [] => inr []
  | _ :: _ => inl (NameError "SimpleCore")
  end.

(** [SimpleSwitchableHetProcessor.__init__(core_types, isa)] *)
Definition __init__ (core_types : list core_type) (isa : option ISA) (w : World)
  : (exn + TwoConfig) * World :=
  match check_core_counts core_types with
  | Some e => (inl e, w)
  | None =>
      let total := Z.to_nat (total_num_cores core_types) in
      match core_types with
      | [] => (inl IndexError, w)
      | ct0 :: _ =>
          let mem_mode := get_mem_mode (fst (fst ct0)) in
          let starting_config := config_of (fun ct => fst (fst ct)) core_types in
          let switch_config := config_of (fun ct => snd (fst ct)) core_types in
          match simple_cores starting_config isa (seq 0 total) with
          | inl e => (inl e, w)
          | inr start_cs =>
              let (start, w1) := new_cores start_cs w in
              match simple_cores switch_config isa (seq 0 total) with
              | inl e => (inl e, w1)
              | inr switch_cs =>
                  let (switch, w2) := new_cores switch_cs w1 in
                  let switchable_cores := [("start"%string, start); ("switch"%string, switch)] in
                  match SwitchableProcessor.__init__ switchable_cores "start" (fst w2) with
                  | (inl e, s) => (inl e, (s, snd w2))
                  | (inr b, s) =>
                      (inr {| base := b;
                              _start_key := "start";
                              _switch_key := "switch";
                              _current_is_start := true;
                              _mem_mode := mem_mode |}, (s, snd w2))
                  end
              end
          end
      end
  end.

End WithStdlib.

Arguments core_type CPUTypes : clear implicits.
Arguments check_core_counts {CPUTypes} core_types.
Arguments total_num_cores {CPUTypes} core_types.
Arguments config_of {CPUTypes} proj core_types.
Arguments simple_cores {CPUTypes} config isa ids.
Arguments __init__ {CPUTypes} get_mem_mode core_types isa w.

(** [self.incorporate_processor(board)]: the outcome (the memory mode
    written to the board, or the exception), the processor and the store
    after the call. *)
Definition incorporate_processor (board : AbstractBoard) (self : TwoConfig) (s : Heap)
  : (exn + MemMode.t) * TwoConfig * Heap :=
  let (b, s') := SwitchableProcessor.incorporate_processor board (base self) s in
  (negotiate_mem_mode board (_mem_mode self),
   {| base := b;
      _start_key := _start_key self;
      _switch_key := _switch_key self;
      _current_is_start := _current_is_start self;
      _mem_mode := _mem_mode self |}, s').

(** [self.switch()] *)
Definition switch (self : TwoConfig) (s : Heap) : (exn + unit) * TwoConfig * Heap :=
  let key := if _current_is_start self then _switch_key self else _start_key self in
  match SwitchableProcessor.switch_to_processor key (base self) s with
  | (inl e, b, s') =>
      (inl e, {| base := b;
                 _start_key := _start_key self;
                 _switch_key := _switch_key self;
                 _current_is_start := _current_is_start self;
                 _mem_mode := _mem_mode self |}, s')
  | (inr r, b, s') =>
      (inr r, {| base := b;
                 _start_key := _start_key self;
                 _switch_key := _switch_key self;
                 _current_is_start := negb (_current_is_start self);
                 _mem_mode := _mem_mode self |}, s')
  end.

End SimpleSwitchableHetProcessor.

Module CoreSwitchableHetProcessor.

(** Modelled from the spec: a simulated CPU model handed to the constructor
    (gem5's BaseCPU, not among the sources): whether it is a KVM model, its
    switched-out parameter, its object tree and its [memory_mode()]. *)
Record BaseCPU : Type := mkCPU {
  cpu_kvm : bool;
  cpu_switched_out : bool;
  cpu_object : SimObject;
  memory_mode : MemMode.t
}.

(** [BaseCPUCore(core=cpu, isa=isa)]: the state of the new handle. *)
Definition wrap (isa : ISA) (cpu : BaseCPU) : BaseCPUCore :=
  mkCore isa (cpu_kvm cpu) (cpu_switched_out cpu) (cpu_object cpu).

(** [CoreSwitchableHetProcessor.__init__(cores, isa)] *)
Definition __init__ (cores : list (BaseCPU * BaseCPU)) (isa : ISA) (w : World)
  : (exn + TwoConfig) * World :=
  match cores with
  | [] => (inl IndexError, w)
  | proc0 :: _ =>
      let mem_mode := memory_mode (fst proc0) in
      let (start, w1) := new_cores (map (fun proc => wrap isa (fst proc)) cores) w in
      let (switch, w2) := new_cores (map (fun proc => wrap isa (snd proc)) cores) w1 in
      let switchable_cores := [("start"%string, start); ("switch"%string, switch)] in
      match SwitchableHetProcessor.__init__ switchable_cores "start" (fst w2) with
      | (inl e, s) => (inl e, (s, snd w2))
      | (inr b, s) =>
          (inr {| base := b;
                  _start_key := "start";
                  _switch_key := "switch";
                  _current_is_start := true;
                  _mem_mode := mem_mode |}, (s, snd w2))
      end
  end.

(** [self.incorporate_processor(board)]: the outcome (the memory mode
    written to the board, or the exception), the processor and the store
    after the call. *)
Definition incorporate_processor (board : AbstractBoard) (self : TwoConfig) (s : Heap)
  : (exn + MemMode.t) * TwoConfig * Heap :=
  let (b, s') := SwitchableHetProcessor.incorporate_processor board (base self) s in
  (negotiate_mem_mode board (_mem_mode self),
   {| base := b;
      _start_key := _start_key self;
      _switch_key := _switch_key self;
      _current_is_start := _current_is_start self;
      _mem_mode := _mem_mode self |}, s').

(** [self.switch()] *)
Definition switch (self : TwoConfig) (s : Heap) : (exn + unit) * TwoConfig * Heap :=
  let key := if _current_is_start self then _switch_key self else _start_key self in
  match SwitchableHetProcessor.switch_to_processor key (base self) s with
  | (inl e, b, s') =>
      (inl e, {| base := b;
                 _start_key := _start_key self;
                 _switch_key := _switch_key self;
                 _current_is_start := _current_is_start self;
                 _mem_mode := _mem_mode self |}, s')
  | (inr r, b, s') =>
      (inr r, {| base := b;
                 _start_key := _start_key self;
                 _switch_key := _switch_key self;
                 _current_is_start := negb (_current_is_start self);
                 _mem_mode := _mem_mode self |}, s')
  end.

End CoreSwitchableHetProcessor.

(** ** Notions used in the statements *)

(** A run of [set_switched_out] over a list: for each element [a], in order,
    the flag of core [ref a] is set to [val a].  The loops of [__init__]
    and the two passes of the swap primitive are such runs. *)
Definition write_flags {A : Type} (ref : A -> handle) (val : A -> bool)
  (l : list A) (s : Heap) : Heap :=
  fold_left (fun s a => set_switched_out (ref a) (val a) s) l s.

(** ** Processors in use *)

(** The switched-out flags agree with the list of current cores: a core of
    the processor is switched out exactly when it is not a current core. *)
Definition flags_consistent (p : SwitchableHetProcessor.t) (s : Heap) : Prop :=
  forall core, In core (SwitchableHetProcessor._all_cores p) ->
    switched_out (s core) = negb (mem core (SwitchableHetProcessor._current_cores p)).

(** The processor [p] once its current cores are [to_switch]. *)
Definition switched (p : SwitchableHetProcessor.t) (to_switch : list handle)
  : SwitchableHetProcessor.t :=
  SwitchableHetProcessor.mk
    (SwitchableHetProcessor._isa p) to_switch
    (SwitchableHetProcessor._switchable_cores p)
    (SwitchableHetProcessor._prepare_kvm p) (SwitchableHetProcessor.kvm_vm p)
    (SwitchableHetProcessor._board p).

(** The timeline a core runs on: the event-queue index of its model. *)
Definition timeline (s : Heap) (core : handle) : nat :=
  eventq_index (get_simobject s core).

(** ** Two-configuration processors in use *)

(** The two classes with a parameterless [switch()]. *)
Inductive two_config_class : Type := SimpleClass | CoreClass.

(** The [switch] method of a class. *)
Definition switch_of (cls : two_config_class)
  : TwoConfig -> Heap -> (exn + unit) * TwoConfig * Heap :=
  match cls with
  | SimpleClass => SimpleSwitchableHetProcessor.switch
  | CoreClass => CoreSwitchableHetProcessor.switch
  end.


(** The configuration a two-configuration processor is not on: the one
    [switch()] asks for. *)
Definition other_key (tc : TwoConfig) : string :=
  if _current_is_start tc then _switch_key tc else _start_key tc.

(** The shape of a two-configuration processor: its dictionary holds the
    core lists [start] and [switch] under the two keys, the lists are
    different and of the same length, and [_current_is_start] tells which
    of them is current. *)
Definition two_config_shape (tc : TwoConfig) (start switch : list handle) : Prop :=
  SwitchableHetProcessor._switchable_cores (base tc)
    = [("start"%string, start); ("switch"%string, switch)] /\
  _start_key tc = "start"%string /\ _switch_key tc = "switch"%string /\
  length start = length switch /\ start <> switch /\
  SwitchableHetProcessor._current_cores (base tc)
    = (if _current_is_start tc then start else switch).

(** ** Concrete processors *)

Module Examples.

(** A core model without sub-objects, on the default timeline. *)
Definition leaf : SimObject := SimObj 0 [].

(** A KVM CPU model with an object tree below it (three sub-objects). *)
Definition kvm_model : SimObject := SimObj 0 [SimObj 0 [SimObj 0 []]; SimObj 0 []].

Definition plain_core : BaseCPUCore := mkCore X86 false false leaf.
Definition kvm_core : BaseCPUCore := mkCore X86 true false kvm_model.
Definition arm_core : BaseCPUCore := mkCore ARM false false leaf.

(** Cores 0 and 1 are KVM cores, core 9 is an ARM core, every other core is
    a plain X86 core. *)
Definition heap0 : Heap :=
  fun h => if h <? 2 then kvm_core else if h =? 9 then arm_core else plain_core.

(** [{"base": [c0, c1], "alt": [c2, c3]}] *)
Definition two_by_two : Dict := [("base"%string, [0; 1]); ("alt"%string, [2; 3])].

(** [{"base": [c0, c1], "alt": [c2]}]: the slot counts differ. *)
Definition uneven : Dict := [("base"%string, [0; 1]); ("alt"%string, [2])].

(** [{"x": [c2, c3], "y": [c4, c5], "z": [c6, c7]}] *)
Definition three : Dict :=
  [("x"%string, [2; 3]); ("y"%string, [4; 5]); ("z"%string, [6; 7])].


(** [{"base": [c2], "_current_cores": [c3], "other": [c4]}]: the second
    configuration has the name of the attribute that holds the current
    cores. *)
Definition named_current : Dict :=
  [("base"%string, [2]); ("_current_cores"%string, [3]); ("other"%string, [4])].

(** [{"base": [c2], "_board": [c3]}]: the second configuration has the name
    of the attribute that holds the board. *)
Definition named_board : Dict := [("base"%string, [2]); ("_board"%string, [3])].

(** [{"_switchable_cores": [c2], "alt": [c3]}]: the first configuration has
    the name of the attribute that holds the dictionary. *)
Definition named_dict : Dict := [("_switchable_cores"%string, [2]); ("alt"%string, [3])].

(** A board whose substrate never fails, without Ruby caches. *)
Definition board0 : AbstractBoard := mkBoard (fun _ _ => false) false.

(** The processor [SwitchableHetProcessor(two_by_two, "base")] and the store
    after its construction. *)
Definition proc_new : SwitchableHetProcessor.t :=
  SwitchableHetProcessor.mk X86 [0; 1] two_by_two true (Some (Own mkKvmVM)) None.

Definition heap_new : Heap := snd (SwitchableHetProcessor.__init__ two_by_two "base" heap0).

(** The same processor and the store after [incorporate_processor(board0)]. *)
Definition proc_inc : SwitchableHetProcessor.t :=
  fst (SwitchableHetProcessor.incorporate_processor board0 proc_new heap_new).

Definition heap_inc : Heap :=
  snd (SwitchableHetProcessor.incorporate_processor board0 proc_new heap_new).

(** The call [switch_to_processor("alt")] on it, and the processor and the
    store after the call. *)
Definition to_alt : (exn + unit) * SwitchableHetProcessor.t * Heap :=
  SwitchableHetProcessor.switch_to_processor "alt" proc_inc heap_inc.

Definition proc_alt : SwitchableHetProcessor.t := snd (fst to_alt).
Definition heap_alt : Heap := snd to_alt.

(** Three configurations: the processor [SwitchableHetProcessor(three, "z")]
    after incorporation, then the calls [switch_to_processor("x")],
    [switch_to_processor("y")] and [switch_to_processor("x")]. *)
Definition proc3_new : SwitchableHetProcessor.t :=
  SwitchableHetProcessor.mk X86 [6; 7] three false None None.

Definition heap3_new : Heap := snd (SwitchableHetProcessor.__init__ three "z" heap0).

Definition proc3 : SwitchableHetProcessor.t :=
  fst (SwitchableHetProcessor.incorporate_processor board0 proc3_new heap3_new).

Definition heap3 : Heap :=
  snd (SwitchableHetProcessor.incorporate_processor board0 proc3_new heap3_new).

Definition to_x := SwitchableHetProcessor.switch_to_processor "x" proc3 heap3.
Definition to_xy :=
  SwitchableHetProcessor.switch_to_processor "y" (snd (fst to_x)) (snd to_x).
Definition to_xyx :=
  SwitchableHetProcessor.switch_to_processor "x" (snd (fst to_xy)) (snd to_xy).






(** The processor [SwitchableHetProcessor(named_current, "base")]: line 81
    has put it on core 3.  Then its incorporation and the calls
    [switch_to_processor("other")], [switch_to_processor("base")] and
    [switch_to_processor("other")]. *)
Definition current_new : SwitchableHetProcessor.t :=
  SwitchableHetProcessor.mk X86 [3] named_current false None None.

Definition current_heap : Heap :=
  snd (SwitchableHetProcessor.__init__ named_current "base" heap0).

Definition current_inc : SwitchableHetProcessor.t :=
  fst (SwitchableHetProcessor.incorporate_processor board0 current_new current_heap).

Definition current_heap_inc : Heap :=
  snd (SwitchableHetProcessor.incorporate_processor board0 current_new current_heap).


(** The processor [SwitchableHetProcessor(named_board, "base")], which has
    not been incorporated: its attribute [_board] is the core list of the
    configuration of that name. *)
Definition board_new : SwitchableHetProcessor.t :=
  SwitchableHetProcessor.mk X86 [2] named_board false None (Some (Rebound [3])).

Definition board_heap : Heap := snd (SwitchableHetProcessor.__init__ named_board "base" heap0).

(** CPU types for [SimpleSwitchableHetProcessor]: the type of a core tells
    its memory mode and whether it is a KVM core. *)
Inductive cpu_type : Type := ATOMIC | KVM | O3 | TIMING | MINOR.

Definition mem_mode_of (c : cpu_type) : MemMode.t :=
  match c with
  | ATOMIC => MemMode.ATOMIC
  | KVM => MemMode.ATOMIC_NONCACHING
  | _ => MemMode.TIMING
  end.

(** Two logical cores, each with a KVM model to start with and a plain
    model to switch to, as the run script builds them. *)
Definition kvm_cpu : CoreSwitchableHetProcessor.BaseCPU :=
  CoreSwitchableHetProcessor.mkCPU true false kvm_model MemMode.ATOMIC_NONCACHING.

Definition dummy_cpu : CoreSwitchableHetProcessor.BaseCPU :=
  CoreSwitchableHetProcessor.mkCPU false false leaf MemMode.TIMING.

Definition cpus : list (CoreSwitchableHetProcessor.BaseCPU * CoreSwitchableHetProcessor.BaseCPU) :=
  [(kvm_cpu, dummy_cpu); (kvm_cpu, dummy_cpu)].

(** [CoreSwitchableHetProcessor(cpus, ISA.X86)], built when 10 is the next
    unused object identity: the new handles are 10, 11 and 12, 13. *)
Definition core_built : (exn + TwoConfig) * World :=
  CoreSwitchableHetProcessor.__init__ cpus X86 (heap0, 10).

Definition tc_new : TwoConfig :=
  mkTwoConfig
    (SwitchableHetProcessor.mk X86 [10; 11]
       [("start"%string, [10; 11]); ("switch"%string, [12; 13])]
       true (Some (Own mkKvmVM)) None)
    "start" "switch" true MemMode.ATOMIC_NONCACHING.

Definition tc_inc : TwoConfig :=
  snd (fst (CoreSwitchableHetProcessor.incorporate_processor board0 tc_new
              (fst (snd core_built)))).

Definition s_inc : Heap :=
  snd (CoreSwitchableHetProcessor.incorporate_processor board0 tc_new (fst (snd core_built))).

(** [switch()] once and twice. *)
Definition toggle1 := CoreSwitchableHetProcessor.switch tc_inc s_inc.
Definition toggle2 := CoreSwitchableHetProcessor.switch (snd (fst toggle1)) (snd toggle1).



(** A board with Ruby caches. *)
Definition ruby_board : AbstractBoard := mkBoard (fun _ _ => false) true.

(** [SimpleSwitchableHetProcessor([(KVM, TIMING, 2)], ISA.X86)], called when
    10 is the next unused object identity. *)
Definition simple_built : (exn + TwoConfig) * World :=
  SimpleSwitchableHetProcessor.__init__ mem_mode_of
    [(KVM, TIMING, 2%Z)] (Some X86) (heap0, 10).

End Examples.

(** ** Runs of switches *)

(** [Switches p s p' s']: from processor [p] in store [s], some calls of
    [switch_to_processor], with whatever keys and outcomes, lead to
    processor [p'] in store [s']. *)
Inductive Switches
  : SwitchableHetProcessor.t -> Heap -> SwitchableHetProcessor.t -> Heap -> Prop :=
| Switches_none p s : Switches p s p s
| Switches_call p s p1 s1 key r p2 s2 :
    Switches p s p1 s1 ->
    SwitchableHetProcessor.switch_to_processor key p1 s1 = (r, p2, s2) ->
    Switches p s p2 s2.

(** The processor [p] once it is attached to [board]. *)
Definition attached (board : AbstractBoard) (p : SwitchableHetProcessor.t)
  : SwitchableHetProcessor.t :=
  SwitchableHetProcessor.mk
    (SwitchableHetProcessor._isa p) (SwitchableHetProcessor._current_cores p)
    (SwitchableHetProcessor._switchable_cores p)
    (SwitchableHetProcessor._prepare_kvm p) (SwitchableHetProcessor.kvm_vm p)
    (Some (Own board)).

(** Two stores that [incorporate_processor] cannot tell apart: every core
    has the same flag, instruction set and KVM capability in both, and its
    sub-objects are the same once they are put on timeline 0. *)
Definition same_up_to_timelines (s t : Heap) : Prop :=
  forall x,
    switched_out (s x) = switched_out (t x) /\
    core_isa (s x) = core_isa (t x) /\
    core_kvm (s x) = core_kvm (t x) /\
    map zero_descendants (children (simobject (s x)))
    = map zero_descendants (children (simobject (t x))).

Module MoreExamples.

(** The processor [SwitchableHetProcessor(uneven, "base")], attached to
    [board0]: its configurations have two slots and one slot. *)
Definition proc_uneven : SwitchableHetProcessor.t :=
  attached Examples.board0
    (SwitchableHetProcessor.mk X86 [0; 1] Examples.uneven
       true (Some (Own mkKvmVM)) None).

End MoreExamples.

(** The two-configuration processor [tc] once its base-class part is [b]:
    what a direct call of a base-class method leaves. *)
Definition with_base (tc : TwoConfig) (b : SwitchableHetProcessor.t) : TwoConfig :=
  mkTwoConfig b (_start_key tc) (_switch_key tc) (_current_is_start tc) (_mem_mode tc).

(** A core as [__init__] leaves it: as it was created, with the given
    switched-out flag. *)
Definition flagged (c : BaseCPUCore) (out : bool) : BaseCPUCore :=
  mkCore (core_isa c) (core_kvm c) out (simobject c).

(** ** hetcores.py *)

Module hetcores.

(** [class CoreSteppings] *)
Module CoreSteppings.
Definition Default : Z := 1.
Definition BigCore : Z := 2.
Definition SmallCore : Z := 3.
Definition IntCore : Z := 4.
Definition FpCore : Z := 5.
End CoreSteppings.

(** The [FamilyModelStepping] vector the four ISA classes define (CPUID
    leaf 1: type/family/model/stepping, then the feature flags), each with
    its own stepping. *)
Definition FamilyModelStepping (stepping : Z) : list Z :=
  [Z.lor 0x00020F50 stepping; 0x00000805; 0xEFDBFBFF; 0x00000209]%Z.

Definition BigCoreISA : list Z := FamilyModelStepping CoreSteppings.BigCore.
Definition SmallCoreISA : list Z := FamilyModelStepping CoreSteppings.SmallCore.
Definition IntCoreISA : list Z := FamilyModelStepping CoreSteppings.IntCore.
Definition FpCoreISA : list Z := FamilyModelStepping CoreSteppings.FpCore.

(** The CPU classes of the file and the gem5 class each derives from:
    [ParentKVMClass = X86KvmCPU], [ParentCPUClass = X86O3CPU],
    [DummyCore = AtomicSimpleCPU]. *)
Inductive cpu_class : Type :=
| BigKvmCore | BigCore | SmallKvmCore | SmallCore | IntKvmCore | FpKvmCore
| SuperSlowCore | SpeedDemonCore | DummyCore.

Inductive parent_class : Type := X86KvmCPU | X86O3CPU | AtomicSimpleCPU.

Definition parent (c : cpu_class) : parent_class :=
  match c with
  | BigKvmCore | SmallKvmCore | IntKvmCore | FpKvmCore | SuperSlowCore | SpeedDemonCore =>
      X86KvmCPU
  | BigCore | SmallCore => X86O3CPU
  | DummyCore => AtomicSimpleCPU
  end.

End hetcores.

(** ** x86-ubuntu-run.py *)

Module x86_ubuntu_run.

(** A CPU model object of the script: its class and its [cpu_id]. *)
Definition model : Type := (hetcores.cpu_class * nat)%type.

(** The six counters of lines 52-57. *)
Record core_numbers : Type := mkNumbers {
  num_big_cores : nat;
  num_small_cores : nat;
  num_int_cores : nat;
  num_fp_cores : nat;
  num_superslow_cores : nat;
  num_speed_demons : nat
}.

(** Lines 52-83: the counters for [system_config]. *)
Definition numbers_of (system_config : Z) : core_numbers :=
  if (system_config =? 0)%Z then mkNumbers 4 0 0 0 0 0
  else if (system_config =? 1)%Z then mkNumbers 2 4 0 0 0 0
  else if (system_config =? 2)%Z then mkNumbers 0 0 2 2 0 0
  else if (system_config =? 3)%Z then mkNumbers 1 2 2 2 0 0
  else if (system_config =? 4)%Z then mkNumbers 0 0 0 4 0 0
  else if (system_config =? -1)%Z then mkNumbers 0 0 0 0 4 0
  else if (system_config =? -2)%Z then mkNumbers 0 0 0 0 0 4
  else mkNumbers 0 0 0 0 0 0.

(** One of the loops of lines 88-135: [num] times, append the pair of a
    [cls] model and a DummyCore model, both with [cpu_id = next_id], and
    increment [next_id].  The state is [(cores, next_id)]. *)
Definition add_cores (cls : hetcores.cpu_class) (num : nat)
  (st : list (model * model) * nat) : list (model * model) * nat :=
  fold_left
    (fun st _ => (fst st ++ [((cls, snd st), (hetcores.DummyCore, snd st))], S (snd st)))
    (seq 0 num) st.

(** Lines 86-135: [cores] and [next_id] after the six loops. *)
Definition build_cores (c : core_numbers) : list (model * model) * nat :=
  add_cores hetcores.SpeedDemonCore (num_speed_demons c)
    (add_cores hetcores.SuperSlowCore (num_superslow_cores c)
       (add_cores hetcores.FpKvmCore (num_fp_cores c)
          (add_cores hetcores.IntKvmCore (num_int_cores c)
             (add_cores hetcores.SmallKvmCore (num_small_cores c)
                (add_cores hetcores.BigKvmCore (num_big_cores c) ([], 0)))))).

(** The classes of the start models, slot by slot. *)
Definition start_classes (c : core_numbers) : list hetcores.cpu_class :=
  repeat hetcores.BigKvmCore (num_big_cores c) ++
  repeat hetcores.SmallKvmCore (num_small_cores c) ++
  repeat hetcores.IntKvmCore (num_int_cores c) ++
  repeat hetcores.FpKvmCore (num_fp_cores c) ++
  repeat hetcores.SuperSlowCore (num_superslow_cores c) ++
  repeat hetcores.SpeedDemonCore (num_speed_demons c).

Section WithGem5.

(** The object tree and the memory mode of a model belong to gem5 and are
    not among the sources: they are parameters. *)
Variable object_of : model -> SimObject.
Variable memory_mode_of : hetcores.cpu_class -> MemMode.t.

(** Modelled from the spec: a model is accelerated (a KVM model) when its
    class derives from gem5's KVM CPU; its switched-out parameter has the
    default [False]. *)
Definition instantiate (m : model) : CoreSwitchableHetProcessor.BaseCPU :=
  CoreSwitchableHetProcessor.mkCPU
    (match hetcores.parent (fst m) with hetcores.X86KvmCPU => true | _ => false end)
    false (object_of m) (memory_mode_of (fst m)).

(** Lines 137-140: [CoreSwitchableHetProcessor(cores=cores, isa=ISA.X86)] *)
Definition processor (system_config : Z) (w : World) : (exn + TwoConfig) * World :=
  CoreSwitchableHetProcessor.__init__
    (map (fun p => (instantiate (fst p), instantiate (snd p)))
       (fst (build_cores (numbers_of system_config))))
    X86 w.

End WithGem5.

End x86_ubuntu_run.

(** * Properties *)

(** ** The store and the lists of references *)

Lemma mem_In (core : handle) (l : list handle) : mem core l = true <-> In core l.
Proof.
  unfold mem. rewrite existsb_exists. split.
  - intros [x [Hx Heq]]. apply Nat.eqb_eq in Heq. now subst.
  - intros H. exists core. split; [assumption | apply Nat.eqb_refl].
Qed.

Lemma mem_not_In (core : handle) (l : list handle) : mem core l = false <-> ~ In core l.
Proof.
  rewrite <- mem_In. destruct (mem core l); split; intros; congruence.
Qed.

Lemma list_eqb_eq (l1 l2 : list handle) : list_eqb l1 l2 = true <-> l1 = l2.
Proof.
  unfold list_eqb. destruct (list_eq_dec Nat.eq_dec l1 l2); split; intros; congruence.
Qed.

Lemma lookup_In (k : string) (d : Dict) (v : list handle) :
  lookup k d = Some v -> In (k, v) d.
Proof.
  induction d as [|[k' v'] d IH]; simpl; [discriminate|].
  destruct (String.eqb k k') eqn:E.
  - apply String.eqb_eq in E. intros [= ->]. left. now subst.
  - intros H. right. now apply IH.
Qed.

Lemma In_all_values (d : Dict) (name : string) (l : list handle) (core : handle) :
  In (name, l) d -> In core l -> In core (concat (values d)).
Proof.
  intros Hd Hc. apply in_concat. exists l. split; [|assumption].
  unfold values. apply in_map_iff. now exists (name, l).
Qed.

Lemma update_same h f s : update h f s h = f (s h).
Proof. unfold update. now rewrite Nat.eqb_refl. Qed.

Lemma update_other h f s x : x <> h -> update h f s x = s x.
Proof. intros H. unfold update. apply Nat.eqb_neq in H. now rewrite H. Qed.

(** What [write_flags] leaves in the
    store: the flag of a listed core is the value written last for it, the
    flag of any other core and all other attributes are as before. *)
Section Flags.

Variable A : Type.
Variable ref : A -> handle.
Variable val : A -> bool.

Lemma write_flags_cons (a : A) (l : list A) (s : Heap) :
  write_flags ref val (a :: l) s =
  write_flags ref val l (set_switched_out (ref a) (val a) s).
Proof. reflexivity. Qed.

Lemma write_flags_frame (l : list A) (s : Heap) (x : handle) :
  core_isa (write_flags ref val l s x) = core_isa (s x) /\
  core_kvm (write_flags ref val l s x) = core_kvm (s x) /\
  simobject (write_flags ref val l s x) = simobject (s x).
Proof.
  revert s. induction l as [|a l IH]; intros s; [cbn; auto|].
  rewrite write_flags_cons.
  destruct (IH (set_switched_out (ref a) (val a) s)) as (H1 & H2 & H3).
  rewrite H1, H2, H3.
  unfold set_switched_out, update. destruct (Nat.eqb x (ref a)); auto.
Qed.

Lemma write_flags_other (l : list A) (s : Heap) (x : handle) :
  ~ In x (map ref l) -> write_flags ref val l s x = s x.
Proof.
  revert s. induction l as [|a l IH]; intros s Hx; [reflexivity|].
  rewrite write_flags_cons. cbn [map In] in Hx. rewrite IH by tauto.
  unfold set_switched_out. apply update_other. intros ->. tauto.
Qed.

(** When the value written depends on the core only, it is the flag of
    every listed core. *)
Lemma write_flags_In (g : handle -> bool) (l : list A) (s : Heap) (x : handle) :
  (forall a, In a l -> val a = g (ref a)) ->
  In x (map ref l) -> switched_out (write_flags ref val l s x) = g x.
Proof.
  revert s. induction l as [|a l IH]; intros s Hg Hx; [contradiction|].
  rewrite write_flags_cons. cbn [map In] in Hx.
  destruct (in_dec Nat.eq_dec x (map ref l)) as [Hin|Hout].
  - apply IH; [|assumption]. intros b Hb. apply Hg. now right.
  - rewrite write_flags_other by assumption.
    destruct Hx as [<-|?]; [|contradiction].
    unfold set_switched_out. rewrite update_same. cbn. apply Hg. now left.
Qed.

End Flags.

Lemma map_fst_combine {A B : Type} (l1 : list A) (l2 : list B) :
  length l1 = length l2 -> map fst (combine l1 l2) = l1.
Proof.
  revert l2. induction l1 as [|a l1 IH]; intros [|b l2] H; simpl in *; try congruence.
  f_equal. apply IH. lia.
Qed.

Lemma map_snd_combine {A B : Type} (l1 : list A) (l2 : list B) :
  length l1 = length l2 -> map snd (combine l1 l2) = l2.
Proof.
  revert l2. induction l1 as [|a l1 IH]; intros [|b l2] H; simpl in *; try congruence.
  f_equal. apply IH. lia.
Qed.

(** ** Construction *)

Import SwitchableHetProcessor.

Lemma init_absent (d : Dict) (start : string) (s : Heap) :
  lookup start d = None ->
  exists msg, __init__ d start s = (inl (AssertionError msg), s).
Proof.
  intros H. unfold __init__. rewrite H. eexists. reflexivity.
Qed.

Lemma init_isa_mismatch (d : Dict) (start : string) (s : Heap) (cur : list handle) :
  lookup start d = Some cur -> isa_count s cur <> 1 ->
  __init__ d start s = (inl (AssertionError ""), s).
Proof.
  intros H Hn. unfold __init__. rewrite H.
  apply Nat.eqb_neq in Hn. now rewrite Hn.
Qed.

Lemma isa_count_nonempty (s : Heap) (cur : list handle) :
  isa_count s cur = 1 -> cur <> [].
Proof. intros H ->. discriminate H. Qed.

(** The loop of lines 78-83, round by round. *)
Lemma init_loop_cons (item : string * list handle) (d : Dict)
  (cur : list handle) (s : Heap) :
  init_loop cur (item :: d) s
  = init_loop (if String.eqb (fst item) "_current_cores" then snd item else cur) d
      (mark_list (if String.eqb (fst item) "_current_cores" then snd item else cur)
         (snd item) s).
Proof. reflexivity. Qed.

(** The loop writes switched-out flags only, and only those of the cores of
    the configurations. *)
Lemma init_loop_frame (d : Dict) : forall (cur : list handle) (s : Heap) (x : handle),
  core_isa (snd (init_loop cur d s) x) = core_isa (s x) /\
  core_kvm (snd (init_loop cur d s) x) = core_kvm (s x) /\
  simobject (snd (init_loop cur d s) x) = simobject (s x).
Proof.
  induction d as [|item d IH]; intros cur s x; [cbn; auto|].
  rewrite init_loop_cons.
  set (cur1 := if String.eqb (fst item) "_current_cores" then snd item else cur).
  destruct (IH cur1 (mark_list cur1 (snd item) s) x) as (H1 & H2 & H3).
  rewrite H1, H2, H3.
  apply (write_flags_frame _ (fun c => c) (fun c => negb (mem c cur1))).
Qed.


(** The list of current cores after the loop: the list the loop started
    with, unless a configuration is named ["_current_cores"]. *)
Lemma init_loop_current (d : Dict) : forall (cur : list handle) (s : Heap),
  fst (init_loop cur d s)
  = match bound "_current_cores" d with Some l => l | None => cur end.
Proof.
  induction d as [|[k v] d IH]; intros cur s; [reflexivity|].
  rewrite init_loop_cons, IH. cbn [fst snd bound].
  destruct (bound "_current_cores" d); [reflexivity|].
  rewrite (String.eqb_sym "_current_cores" k). now destruct (String.eqb k "_current_cores").
Qed.

(** Without a configuration of that name the loop flags every core of every
    configuration against the starting configuration. *)
Lemma init_loop_plain (d : Dict) : forall (cur : list handle) (s : Heap),
  bound "_current_cores" d = None ->
  init_loop cur d s
  = (cur, write_flags (fun c => c) (fun c => negb (mem c cur)) (concat (values d)) s).
Proof.
  induction d as [|[k v] d IH]; intros cur s Hb; [reflexivity|].
  rewrite init_loop_cons. cbn [fst snd bound] in *.
  destruct (bound "_current_cores" d) eqn:Eb; [discriminate|].
  rewrite (String.eqb_sym "_current_cores" k) in Hb.
  destruct (String.eqb k "_current_cores"); [discriminate|].
  rewrite IH by reflexivity. cbn [values map concat snd].
  unfold write_flags at 2. rewrite fold_left_app. reflexivity.
Qed.

(** A name that begins with an underscore is bound by line 81 only when a
    configuration has that name. *)
Lemma bound_In (name : string) (d : Dict) (l : list handle) :
  bound name d = Some l -> In (name, l) d.
Proof.
  induction d as [|[k v] d IH]; cbn [bound]; [discriminate|].
  destruct (bound name d) as [l'|].
  - intros [= ->]. right. now apply IH.
  - destruct (String.eqb name k) eqn:E; [|discriminate].
    apply String.eqb_eq in E. intros [= ->]. left. now subst.
Qed.

Lemma bound_absent (name : string) (d : Dict) :
  ~ In name (keys d) -> bound name d = None.
Proof.
  intros H. destruct (bound name d) as [l|] eqn:E; [|reflexivity].
  exfalso. apply H. apply bound_In in E. unfold keys.
  apply in_map_iff. now exists (name, l).
Qed.

Lemma bound_private (name : string) (d : Dict) :
  String.prefix "_" name = true ->
  (forall k, In k (keys d) -> String.prefix "_" k = false) ->
  bound name d = None.
Proof.
  intros Hp Hd. apply bound_absent. intros Hin. specialize (Hd name Hin). congruence.
Qed.

(** What [__init__] returns, past the checks of lines 64-76. *)
Lemma init_unfold (d : Dict) (start : string) (s : Heap) (cur : list handle) :
  lookup start d = Some cur -> isa_count s cur = 1 ->
  exists core0 rest, cur = core0 :: rest /\
  __init__ d start s
  = match bound "_all_cores" d with
    | Some _ => (inl TypeError, snd (init_loop cur d s))
    | None =>
        match bound "_switchable_cores" d with
        | Some _ => (inl AttributeError, snd (init_loop cur d s))
        | None =>
            (inr (mk (get_isa s core0) (fst (init_loop cur d s)) d
                    (existsb (is_kvm_core (snd (init_loop cur d s))) (concat (values d)))
                    (if existsb (is_kvm_core (snd (init_loop cur d s))) (concat (values d))
                     then Some (Own mkKvmVM)
                     else option_map Rebound (bound "kvm_vm" d))
                    (option_map Rebound (bound "_board" d))),
             snd (init_loop cur d s))
        end
    end.
Proof.
  intros H Hc. unfold __init__. rewrite H.
  pose proof (isa_count_nonempty _ _ Hc) as Hne.
  apply Nat.eqb_eq in Hc. rewrite Hc. cbn [negb].
  destruct cur as [|core0 rest]; [congruence|].
  exists core0, rest. split; reflexivity.
Qed.

Lemma init_succeeds (d : Dict) (start : string) (s : Heap) (cur : list handle) :
  lookup start d = Some cur -> isa_count s cur = 1 ->
  bound "_all_cores" d = None -> bound "_switchable_cores" d = None ->
  exists p, __init__ d start s = (inr p, snd (init_loop cur d s)) /\
            _current_cores p = fst (init_loop cur d s) /\ _switchable_cores p = d /\
            _board p = option_map Rebound (bound "_board" d) /\
            _prepare_kvm p
            = existsb (is_kvm_core (snd (init_loop cur d s))) (concat (values d)).
Proof.
  intros H Hc Ha Hs.
  destruct (init_unfold d start s cur H Hc) as (core0 & rest & -> & Hi).
  rewrite Ha, Hs in Hi. eexists. split; [exact Hi|]. cbn. auto.
Qed.

(** What a successful construction returns. *)
Lemma init_inv {d : Dict} {start : string} {s : Heap} {p : t} {s1 : Heap} :
  __init__ d start s = (inr p, s1) ->
  exists cur, lookup start d = Some cur /\ isa_count s cur = 1 /\
              s1 = snd (init_loop cur d s) /\
              _current_cores p = fst (init_loop cur d s) /\ _switchable_cores p = d /\
              _board p = option_map Rebound (bound "_board" d) /\
              _prepare_kvm p = existsb (is_kvm_core s1) (concat (values d)).
Proof.
  intros H. destruct (lookup start d) as [cur|] eqn:El.
  - destruct (Nat.eq_dec (isa_count s cur) 1) as [Hc|Hc].
    + destruct (init_unfold d start s cur El Hc) as (core0 & rest & -> & Hi).
      rewrite Hi in H.
      destruct (bound "_all_cores" d); [discriminate|].
      destruct (bound "_switchable_cores" d); [discriminate|].
      injection H as <- <-. eexists. repeat split; try reflexivity; assumption.
    + rewrite (init_isa_mismatch d start s cur El Hc) in H. discriminate.
  - destruct (init_absent d start s El) as [msg Hm]. rewrite Hm in H. discriminate.
Qed.

(** If all cores of a non-empty list have the same instruction set, the set
    of their instruction sets has one element. *)
Lemma nodup_constant (i : ISA) (l : list ISA) :
  l <> [] -> (forall x, In x l -> x = i) -> nodup ISA_eq_dec l = [i].
Proof.
  induction l as [|a l IH]; intros Hne Hall; [congruence|].
  cbn. destruct (in_dec ISA_eq_dec a l) as [Hin|Hout].
  - apply IH; [intros ->; contradiction|]. intros x Hx. apply Hall. now right.
  - destruct l as [|b l].
    + cbn. f_equal. apply Hall. now left.
    + exfalso. apply Hout. left.
      rewrite (Hall a), (Hall b); cbn; auto.
Qed.

Lemma isa_count_single (s : Heap) (i : ISA) (cur : list handle) :
  cur <> [] -> (forall h, In h cur -> get_isa s h = i) -> isa_count s cur = 1.
Proof.
  intros Hne Hall. unfold isa_count.
  rewrite (nodup_constant i); [reflexivity| |].
  - destruct cur; [congruence|discriminate].
  - intros x Hx. apply in_map_iff in Hx. destruct Hx as (h & <- & Hh). now apply Hall.
Qed.

(** C2, as the code has it: construction fails with an AssertionError when
    the starting configuration is absent from the dictionary, and when the
    instruction sets of the cores of the starting configuration do not form
    a set of exactly one element; it succeeds when the starting
    configuration is present and non-empty, all cores of the processor have
    one instruction set and no configuration name begins with an underscore,
    whether or not the configurations agree in slot count (that is checked
    by [switch_to_processor]). *)
Theorem C2_construction (d : Dict) (start : string) (s : Heap) :
  (lookup start d = None ->
     exists msg, __init__ d start s = (inl (AssertionError msg), s)) /\
  (forall cur, lookup start d = Some cur -> isa_count s cur <> 1 ->
     __init__ d start s = (inl (AssertionError ""), s)) /\
  (forall cur i, lookup start d = Some cur -> cur <> [] ->
     (forall h, In h (concat (values d)) -> get_isa s h = i) ->
     (forall name, In name (keys d) -> String.prefix "_" name = false) ->
     exists p s1, __init__ d start s = (inr p, s1)).
Proof.
  split; [apply init_absent|]. split; [apply init_isa_mismatch|].
  intros cur i Hl Hne Hall Hnames.
  assert (Hc : isa_count s cur = 1).
  { apply isa_count_single with (i := i); [assumption|].
    intros h Hh. apply Hall. apply lookup_In in Hl.
    eapply In_all_values; eassumption. }
  destruct (init_succeeds d start s cur Hl Hc) as (p & Hp & _);
    [apply bound_private; [reflexivity|assumption] ..|].
  eauto.
Qed.

Lemma C2_construction_witness :
  (exists msg, __init__ Examples.uneven "none" Examples.heap0
               = (inl (AssertionError msg), Examples.heap0)) /\
  __init__ [("base"%string, [2; 9])] "base" Examples.heap0
    = (inl (AssertionError ""), Examples.heap0) /\
  (exists p s1, __init__ Examples.uneven "base" Examples.heap0 = (inr p, s1)).
Proof.
  split; [|split].
  - apply (proj1 (C2_construction Examples.uneven "none" Examples.heap0)). reflexivity.
  - apply (proj1 (proj2 (C2_construction [("base"%string, [2; 9])] "base" Examples.heap0))
             [2; 9]); [reflexivity | vm_compute; lia].
  - apply (proj2 (proj2 (C2_construction Examples.uneven "base" Examples.heap0))
             [0; 1] X86); [reflexivity | discriminate | |].
    + intros h Hh. cbn in Hh.
      repeat (destruct Hh as [<-|Hh]; [reflexivity|]). contradiction.
    + intros name Hn. cbn in Hn.
      repeat (destruct Hn as [<-|Hn]; [reflexivity|]). contradiction.
Defined.

(** C2 as stated fails: two configurations that disagree in slot count do
    not make construction fail. *)
Lemma C2_counterexample :
  lookup "base" Examples.uneven = Some [0; 1] /\
  lookup "alt" Examples.uneven = Some [2] /\
  length [0; 1] <> length [2] /\
  exists p, fst (__init__ Examples.uneven "base" Examples.heap0) = inr p.
Proof.
  repeat split; try (cbn; lia). eexists. reflexivity.
Qed.

(** Neither does a second instruction set outside the starting
    configuration. *)
Lemma init_mixed_isa_elsewhere :
  isa_count Examples.heap0 (concat (values [("base"%string, [2]); ("alt"%string, [9])])) = 2 /\
  exists p, fst (__init__ [("base"%string, [2]); ("alt"%string, [9])] "base" Examples.heap0)
            = inr p.
Proof. split; [reflexivity|]. eexists. reflexivity. Qed.

(** A configuration named like the attribute that holds the dictionary
    makes construction fail, after the flags have been written. *)
Lemma init_named_dict :
  __init__ Examples.named_dict "alt" Examples.heap0
  = (inl AttributeError, snd (__init__ Examples.named_dict "alt" Examples.heap0)) /\
  switched_out (Examples.heap0 2) = false /\
  switched_out (snd (__init__ Examples.named_dict "alt" Examples.heap0) 2) = true.
Proof. repeat split. Qed.

(** ** The switched-out flags after construction and incorporation *)

(** Without a configuration named ["_current_cores"], construction leaves
    the flags in agreement with the list of current cores. *)
Lemma init_flags {d : Dict} {start : string} {s : Heap} {p : t} {s1 : Heap} :
  __init__ d start s = (inr p, s1) -> bound "_current_cores" d = None ->
  flags_consistent p s1.
Proof.
  intros H Hb. destruct (init_inv H) as (cur & Hl & Hc & -> & Hcur & Hd & _).
  rewrite (init_loop_plain d cur s Hb) in *. cbn [fst snd] in *.
  intros x Hx. unfold _all_cores in Hx. rewrite Hd in Hx. rewrite Hcur.
  apply write_flags_In with (g := fun c => negb (mem c cur)); [reflexivity|].
  now rewrite map_id.
Qed.

Lemma assign_eventq_frame (s : Heap) (ic : nat * handle) (x : handle) :
  switched_out (assign_eventq s ic x) = switched_out (s x) /\
  core_kvm (assign_eventq s ic x) = core_kvm (s x) /\
  core_isa (assign_eventq s ic x) = core_isa (s x).
Proof.
  destruct ic as [i core]. unfold assign_eventq, map_simobject, update.
  destruct (Nat.eqb x core); cbn; auto.
Qed.

Lemma assign_all_frame (l : list (nat * handle)) (s : Heap) (x : handle) :
  switched_out (fold_left assign_eventq l s x) = switched_out (s x) /\
  core_kvm (fold_left assign_eventq l s x) = core_kvm (s x) /\
  core_isa (fold_left assign_eventq l s x) = core_isa (s x).
Proof.
  revert s. induction l as [|ic l IH]; intros s; [cbn; auto|].
  cbn [fold_left]. destruct (IH (assign_eventq s ic)) as (H1 & H2 & H3).
  destruct (assign_eventq_frame s ic x) as (G1 & G2 & G3).
  rewrite H1, H2, H3. auto.
Qed.

Lemma incorporate_inv {board : AbstractBoard} {p : t} {s : Heap} {p' : t} {s' : Heap} :
  incorporate_processor board p s = (p', s') ->
  _current_cores p' = _current_cores p /\
  _switchable_cores p' = _switchable_cores p /\
  _board p' = Some (Own board) /\
  forall x, switched_out (s' x) = switched_out (s x) /\
            core_kvm (s' x) = core_kvm (s x) /\
            core_isa (s' x) = core_isa (s x).
Proof.
  unfold incorporate_processor. destruct (_prepare_kvm p); intros [= <- <-]; cbn;
    repeat split; auto; apply assign_all_frame.
Qed.

Lemma incorporate_flags {board : AbstractBoard} {p : t} {s : Heap} {p' : t} {s' : Heap} :
  incorporate_processor board p s = (p', s') ->
  flags_consistent p s -> flags_consistent p' s'.
Proof.
  intros H Hc. destruct (incorporate_inv H) as (H1 & H2 & _ & Hf).
  intros x Hx. unfold _all_cores in Hx. rewrite H2 in Hx.
  destruct (Hf x) as (-> & _). rewrite H1. now apply Hc.
Qed.

(** C6, at the failing input [{"base": [c2], "_current_cores": [c3]}] with
    a third configuration [{"other": [c4]}], started at ["base"]: the
    constructor returns a processor, line 81 has rebound its list of current
    cores to [[c3]], and after incorporation core 2, which belongs to the
    configuration ["base"] and is not a current core, is not switched
    out. *)
Theorem C6_failing_input :
  __init__ Examples.named_current "base" Examples.heap0
    = (inr Examples.current_new, Examples.current_heap) /\
  incorporate_processor Examples.board0 Examples.current_new Examples.current_heap
    = (Examples.current_inc, Examples.current_heap_inc) /\
  get_cores Examples.current_inc = [3] /\
  lookup "base" (_switchable_cores Examples.current_inc) = Some [2] /\
  ~ In 2 (get_cores Examples.current_inc) /\
  switched_out (Examples.current_heap_inc 2) = false.
Proof.
  repeat split. cbn. lia.
Qed.

(** ** The switch protocol *)

(** The store after a successful swap of the pairs of two lists of equal
    length: the incoming cores are switched in, the other outgoing cores are
    switched out, nothing else has changed. *)
Lemma switchCpus_inv {board : AbstractBoard} {old new : list handle} {s s' : Heap} :
  length old = length new ->
  switchCpus (Own board) (combine old new) s = inr s' ->
  swap_refused board (combine old new) s = false /\
  forall x,
    switched_out (s' x) =
      (if mem x new then false else if mem x old then true else switched_out (s x)) /\
    core_isa (s' x) = core_isa (s x) /\
    core_kvm (s' x) = core_kvm (s x) /\
    simobject (s' x) = simobject (s x).
Proof.
  intros Hlen. unfold switchCpus.
  destruct (swap_refused board (combine old new) s); [discriminate|].
  intros [= <-]. split; [reflexivity|]. intros x.
  set (l := combine old new).
  change (fold_left (fun s p => set_switched_out (fst p) true s) l s)
    with (write_flags fst (fun _ : handle * handle => true) l s).
  set (s1 := write_flags fst (fun _ : handle * handle => true) l s).
  change (fold_left (fun s p => set_switched_out (snd p) false s) l s1)
    with (write_flags snd (fun _ : handle * handle => false) l s1).
  destruct (write_flags_frame _ snd (fun _ => false) l s1 x) as (A1 & A2 & A3).
  destruct (write_flags_frame _ fst (fun _ => true) l s x) as (B1 & B2 & B3).
  fold s1 in B1, B2, B3.
  split; [|rewrite A1, A2, A3; auto].
  destruct (mem x new) eqn:En.
  - apply write_flags_In with (g := fun _ => false); [reflexivity|].
    subst l. rewrite map_snd_combine by assumption. now apply mem_In.
  - rewrite write_flags_other.
    2:{ subst l. rewrite map_snd_combine by assumption. now apply mem_not_In. }
    destruct (mem x old) eqn:Eo.
    + apply write_flags_In with (g := fun _ => true); [reflexivity|].
      subst l. rewrite map_fst_combine by assumption. now apply mem_In.
    + subst s1. rewrite write_flags_other; [reflexivity|].
      subst l. rewrite map_fst_combine by assumption. now apply mem_not_In.
Qed.

(** What a successful [switch_to_processor] has gone through. *)
Lemma switch_ok_inv {key : string} {p : t} {s : Heap} {r : unit} {p' : t} {s' : Heap} :
  switch_to_processor key p s = (inr r, p', s') ->
  exists board to_switch,
    _board p = Some (Own board) /\
    lookup key (_switchable_cores p) = Some to_switch /\
    to_switch <> _current_cores p /\
    length to_switch = length (_current_cores p) /\
    switchCpus (Own board) (combine (_current_cores p) to_switch) s = inr s' /\
    p' = switched p to_switch.
Proof.
  unfold switch_to_processor.
  destruct (_board p) as [[board|l]|] eqn:Eb; [| |discriminate].
  2:{ destruct (lookup key (_switchable_cores p)) as [to_switch|]; [|discriminate].
      destruct (list_eqb to_switch (_current_cores p)); [discriminate|].
      destruct (negb (length to_switch =? length (_current_cores p))); discriminate. }
  destruct (lookup key (_switchable_cores p)) as [to_switch|]; [|discriminate].
  destruct (list_eqb to_switch (_current_cores p)) eqn:Eeq; [discriminate|].
  destruct (length to_switch =? length (_current_cores p)) eqn:Elen; [|discriminate].
  cbn [negb].
  destruct (switchCpus (Own board) (combine (_current_cores p) to_switch) s) as [e|s2] eqn:Esw;
    [discriminate|].
  intros [= _ <- <-]. exists board, to_switch.
  split; [reflexivity|]. split; [reflexivity|].
  split; [intros Heq; apply list_eqb_eq in Heq; congruence|].
  split; [now apply Nat.eqb_eq|].
  split; [assumption|]. unfold switched. now rewrite Eb.
Qed.

(** A call that raises leaves the processor and the store as they were. *)
Lemma switch_error_unchanged {key : string} {p : t} {s : Heap} {e : exn} {p' : t} {s' : Heap} :
  switch_to_processor key p s = (inl e, p', s') -> p' = p /\ s' = s.
Proof.
  unfold switch_to_processor.
  destruct (_board p) as [system|]; [|now intros [= _ <- <-]].
  destruct (lookup key (_switchable_cores p)) as [to_switch|]; [|now intros [= _ <- <-]].
  destruct (list_eqb to_switch (_current_cores p)); [now intros [= _ <- <-]|].
  destruct (negb (length to_switch =? length (_current_cores p))); [now intros [= _ <- <-]|].
  destruct (switchCpus system (combine (_current_cores p) to_switch) s);
    [now intros [= _ <- <-]|discriminate].
Qed.

(** C3, at the failing input [{"base": [c2], "_board": [c3]}] started at
    ["base"]: the constructor returns a processor whose attribute [_board]
    is the core list [[c3]]; the processor has not been incorporated, but
    [switch_to_processor("_board")] passes the check of line 129 and all the
    checks after it and calls [m5.switchCpus] with that core list: the call
    does not end with the AssertionError of line 130, nor with any other
    AssertionError. *)
Theorem C3_failing_input :
  __init__ Examples.named_board "base" Examples.heap0
    = (inr Examples.board_new, Examples.board_heap) /\
  _board Examples.board_new = Some (Rebound [3]) /\
  lookup "_board" (_switchable_cores Examples.board_new) = Some [3] /\
  [3] <> _current_cores Examples.board_new /\
  length [3] = length (_current_cores Examples.board_new) /\
  switch_to_processor "_board" Examples.board_new Examples.board_heap
    = (match switchCpus (Rebound [3]) (combine (_current_cores Examples.board_new) [3])
               Examples.board_heap with
       | inl e => inl e
       | inr _ => inr tt
       end, Examples.board_new, Examples.board_heap) /\
  forall msg, fst (fst (switch_to_processor "_board" Examples.board_new Examples.board_heap))
              <> inl (AssertionError msg).
Proof.
  repeat split; discriminate.
Qed.



(** C9: [get_num_cores] is the length of the list of current cores, and a
    successful [switch_to_processor] does not change it. *)
Theorem C9_num_cores (key : string) (p : t) (s : Heap) (p' : t) (s' : Heap) :
  get_num_cores p = length (get_cores p) /\
  (switch_to_processor key p s = (inr tt, p', s') ->
   get_num_cores p' = get_num_cores p).
Proof.
  split; [reflexivity|]. intros H.
  destruct (switch_ok_inv H) as (board & to_switch & _ & _ & _ & Hlen & _ & ->).
  exact Hlen.
Qed.


Lemma C9_num_cores_witness :
  get_num_cores Examples.proc_inc = 2 /\ get_num_cores Examples.proc_alt = 2.
Proof.
  destruct (C9_num_cores "alt" Examples.proc_inc Examples.heap_inc
              Examples.proc_alt Examples.heap_alt) as [Hlen Hkeep].
  split; [exact Hlen | exact (Hkeep eq_refl)].
Defined.

(** ** Runs of switches *)

(** A successful switch keeps the flags in agreement with the list of
    current cores. *)
Lemma switch_flags {key : string} {p : t} {s : Heap} {r : unit} {p' : t} {s' : Heap} :
  switch_to_processor key p s = (inr r, p', s') ->
  flags_consistent p s -> flags_consistent p' s'.
Proof.
  intros H Hc.
  destruct (switch_ok_inv H) as (board & to_switch & Hb & Hl & Hne & Hlen & Hsw & ->).
  destruct (switchCpus_inv (eq_sym Hlen) Hsw) as (_ & Hf).
  intros x Hx. cbn [switched _current_cores]. destruct (Hf x) as (-> & _).
  destruct (mem x to_switch); [reflexivity|].
  rewrite (Hc x Hx). now destruct (mem x (_current_cores p)).
Qed.


(** ** Timelines *)

(** Induction on a simulated object, with the property available for every
    child. *)
Lemma SimObject_induction (P : SimObject -> Prop) :
  (forall i cs, Forall P cs -> P (SimObj i cs)) -> forall o, P o.
Proof.
  intros H. fix IH 1. intros [i cs]. apply H.
  induction cs as [|c cs IHcs]; constructor; [apply IH | exact IHcs].
Qed.

Lemma zero_descendants_all (o d : SimObject) :
  In d (descendants (zero_descendants o)) -> eventq_index d = 0.
Proof.
  revert d. induction o as [i cs IH] using SimObject_induction. intros d Hd.
  cbn [zero_descendants descendants] in Hd. destruct Hd as [<-|Hd]; [reflexivity|].
  apply in_flat_map in Hd. destruct Hd as (c' & Hc' & Hd).
  apply in_map_iff in Hc'. destruct Hc' as (c & <- & Hc).
  rewrite Forall_forall in IH. exact (IH c Hc d Hd).
Qed.

Lemma assign_eventq_same (s : Heap) (i : nat) (core : handle) :
  simobject (assign_eventq s (i, core) core)
  = set_eventq_index (i + 1) (zero_descendants (simobject (s core))).
Proof.
  unfold assign_eventq, map_simobject. now rewrite !update_same.
Qed.

Lemma assign_eventq_other (s : Heap) (i : nat) (core x : handle) :
  x <> core -> assign_eventq s (i, core) x = s x.
Proof.
  intros H. unfold assign_eventq, map_simobject. now rewrite !update_other.
Qed.

Lemma sub_objects_assigned (i : nat) (o d : SimObject) :
  In d (sub_objects (set_eventq_index i (zero_descendants o))) -> eventq_index d = 0.
Proof.
  intros Hd. apply (zero_descendants_all o). destruct o as [j cs].
  cbn [zero_descendants descendants]. right. exact Hd.
Qed.

(** The loop over [enumerate(kvm_cores)], started at number [k]: cores that
    are not listed are left alone; a listed core ends on a timeline between
    [k + 1] and [k + len(kvm_cores)] with all its sub-objects on timeline 0;
    two different listed cores end on different timelines. *)
Lemma assign_from (l : list handle) : forall (k : nat) (s : Heap),
  let s' := fold_left assign_eventq (combine (seq k (length l)) l) s in
  (forall x, ~ In x l -> s' x = s x) /\
  (forall x, In x l ->
     k + 1 <= timeline s' x <= k + length l /\
     forall d, In d (sub_objects (get_simobject s' x)) -> eventq_index d = 0) /\
  (forall x y, In x l -> In y l -> x <> y -> timeline s' x <> timeline s' y).
Proof.
  induction l as [|h t IH]; intros k s; cbn zeta.
  - cbn. repeat split; intros; contradiction.
  - cbn [length seq combine fold_left].
    destruct (IH (S k) (assign_eventq s (k, h))) as (Hout & Hin & Hdiff).
    cbn zeta in Hout, Hin, Hdiff.
    set (s' := fold_left assign_eventq (combine (seq (S k) (length t)) t)
                 (assign_eventq s (k, h))) in *.
    assert (Hhead : ~ In h t ->
              timeline s' h = k + 1 /\
              forall d, In d (sub_objects (get_simobject s' h)) -> eventq_index d = 0).
    { intros Hn. unfold timeline, get_simobject. rewrite (Hout h Hn).
      rewrite assign_eventq_same. split; [reflexivity|].
      intros d. apply sub_objects_assigned. }
    split; [|split].
    + intros x Hx. cbn [In] in Hx.
      rewrite Hout by tauto. apply assign_eventq_other. intros ->. tauto.
    + intros x Hx. destruct (in_dec Nat.eq_dec x t) as [Ht|Ht].
      * destruct (Hin x Ht) as (Hr & Hs). split; [lia | exact Hs].
      * destruct Hx as [<-|Hx]; [|contradiction].
        destruct (Hhead Ht) as (-> & Hs). split; [lia | exact Hs].
    + intros x y Hx Hy Hxy.
      destruct (in_dec Nat.eq_dec x t) as [Hxt|Hxt];
        destruct (in_dec Nat.eq_dec y t) as [Hyt|Hyt].
      * now apply Hdiff.
      * destruct Hy as [<-|Hy]; [|contradiction].
        destruct (Hhead Hyt) as (-> & _). destruct (Hin x Hxt) as (Hr & _). lia.
      * destruct Hx as [<-|Hx]; [|contradiction].
        destruct (Hhead Hxt) as (-> & _). destruct (Hin y Hyt) as (Hr & _). lia.
      * destruct Hx as [<-|Hx]; [|contradiction].
        destruct Hy as [<-|Hy]; [|contradiction]. congruence.
Qed.

Lemma init_prepare {d : Dict} {start : string} {s : Heap} {p : t} {s1 : Heap} :
  __init__ d start s = (inr p, s1) ->
  _prepare_kvm p = existsb (is_kvm_core s1) (_all_cores p).
Proof.
  intros H. destruct (init_inv H) as (cur & _ & _ & _ & _ & Hd & _ & Hp).
  unfold _all_cores. now rewrite Hd.
Qed.

(** The store after [__init__]: only switched-out flags have changed. *)
Lemma init_frame {d : Dict} {start : string} {s : Heap} {p : t} {s1 : Heap} :
  __init__ d start s = (inr p, s1) ->
  forall x, core_kvm (s1 x) = core_kvm (s x) /\ simobject (s1 x) = simobject (s x).
Proof.
  intros H x. destruct (init_inv H) as (cur & _ & _ & -> & _).
  destruct (init_loop_frame d cur s x) as (_ & H2 & H3). auto.
Qed.

(** The timelines after incorporation. *)
Lemma incorporate_timelines {board : AbstractBoard} {p : t} {s1 : Heap} {p' : t} {s2 : Heap} :
  _prepare_kvm p = existsb (is_kvm_core s1) (_all_cores p) ->
  incorporate_processor board p s1 = (p', s2) ->
  (forall x, In x (_all_cores p') -> is_kvm_core s2 x = true ->
     1 <= timeline s2 x /\
     forall d, In d (sub_objects (get_simobject s2 x)) -> eventq_index d = 0) /\
  (forall x y, In x (_all_cores p') -> In y (_all_cores p') ->
     is_kvm_core s2 x = true -> is_kvm_core s2 y = true -> x <> y ->
     timeline s2 x <> timeline s2 y) /\
  (forall x, is_kvm_core s2 x = false -> s2 x = s1 x).
Proof.
  intros Hprep Hinc.
  destruct (incorporate_inv Hinc) as (_ & Hd & _ & Hf).
  assert (Hall : _all_cores p' = _all_cores p) by (unfold _all_cores; now rewrite Hd).
  assert (Hk : forall x, is_kvm_core s2 x = is_kvm_core s1 x).
  { intros x. unfold is_kvm_core. now destruct (Hf x) as (_ & -> & _). }
  rewrite Hall. unfold incorporate_processor in Hinc.
  destruct (_prepare_kvm p) eqn:Ep.
  - injection Hinc as _ <-. unfold enumerate in *.
    destruct (assign_from (filter (is_kvm_core s1) (_all_cores p)) 0 s1)
      as (Hout & Hin & Hdiff).
    cbn zeta in Hout, Hin, Hdiff.
    set (s2 := fold_left assign_eventq _ s1) in *.
    split; [|split].
    + intros x Hx Hkx. rewrite Hk in Hkx.
      destruct (Hin x) as (Hr & Hs); [apply filter_In; auto|].
      split; [lia | exact Hs].
    + intros x y Hx Hy Hkx Hky Hxy. rewrite Hk in Hkx, Hky.
      apply Hdiff; [apply filter_In; auto | apply filter_In; auto | assumption].
    + intros x Hkx. rewrite Hk in Hkx. apply Hout.
      intros Hx. apply filter_In in Hx. destruct Hx as [_ Hx]. congruence.
  - injection Hinc as _ <-.
    assert (Hnone : forall x, In x (_all_cores p) -> is_kvm_core s1 x = false).
    { intros x Hx. destruct (is_kvm_core s1 x) eqn:E; [|reflexivity].
      symmetry in Hprep. rewrite <- not_true_iff_false in Hprep.
      exfalso. apply Hprep. apply existsb_exists. now exists x. }
    split; [|split].
    + intros x Hx Hkx. rewrite (Hnone x Hx) in Hkx. discriminate.
    + intros x y Hx _ Hkx. rewrite (Hnone x Hx) in Hkx. discriminate.
    + reflexivity.
Qed.

(** C5: after [__init__] and [incorporate_processor], every KVM core of any
    configuration runs on a timeline other than 0, two different KVM cores
    run on different timelines, and every other core runs on timeline 0, the
    default timeline its model was on when the processor was built. *)
Theorem C5_timeline_assignment
  (d : Dict) (start : string) (s : Heap) (p : t) (s1 : Heap)
  (board : AbstractBoard) (p' : t) (s2 : Heap) :
  __init__ d start s = (inr p, s1) ->
  incorporate_processor board p s1 = (p', s2) ->
  (forall core, In core (_all_cores p') -> is_kvm_core s core = false ->
     timeline s core = 0) ->
  (forall core, In core (_all_cores p') -> is_kvm_core s2 core = true ->
     timeline s2 core <> 0) /\
  (forall c1 c2, In c1 (_all_cores p') -> In c2 (_all_cores p') ->
     is_kvm_core s2 c1 = true -> is_kvm_core s2 c2 = true -> c1 <> c2 ->
     timeline s2 c1 <> timeline s2 c2) /\
  (forall core, In core (_all_cores p') -> is_kvm_core s2 core = false ->
     timeline s2 core = 0).
Proof.
  intros Hi Hinc Hdefault.
  destruct (incorporate_timelines (init_prepare Hi) Hinc) as (Hkvm & Hdiff & Hrest).
  split; [|split].
  - intros core Hc Hk. destruct (Hkvm core Hc Hk) as (Hr & _). lia.
  - exact Hdiff.
  - intros core Hc Hk. unfold timeline, get_simobject. rewrite (Hrest core Hk).
    destruct (init_frame Hi core) as (Hk1 & ->).
    apply (Hdefault core Hc).
    unfold is_kvm_core in *. rewrite (Hrest core Hk) in Hk. congruence.
Qed.

Lemma C5_timeline_assignment_witness :
  timeline Examples.heap_inc 0 <> 0 /\
  timeline Examples.heap_inc 0 <> timeline Examples.heap_inc 1 /\
  timeline Examples.heap_inc 2 = 0.
Proof.
  destruct (C5_timeline_assignment
              Examples.two_by_two "base" Examples.heap0 Examples.proc_new Examples.heap_new
              Examples.board0 Examples.proc_inc Examples.heap_inc eq_refl eq_refl)
    as (Hkvm & Hdiff & Hrest).
  - intros core Hc Hk. cbn in Hc.
    repeat (destruct Hc as [<-|Hc]; [try discriminate Hk; reflexivity|]). contradiction.
  - split; [|split].
    + apply Hkvm; [cbn; auto | reflexivity].
    + apply Hdiff; [cbn; auto | cbn; auto | reflexivity | reflexivity | lia].
    + apply Hrest; [cbn; auto | reflexivity].
Defined.

(** C4, as the code has it: incorporation puts the model of each KVM core
    on a timeline of its own, which is neither the default timeline 0 nor
    the timeline of another KVM core of the processor, and puts every
    sub-object of that model on the default timeline 0. *)
Theorem C4_private_timeline
  (d : Dict) (start : string) (s : Heap) (p : t) (s1 : Heap)
  (board : AbstractBoard) (p' : t) (s2 : Heap) (core : handle) :
  __init__ d start s = (inr p, s1) ->
  incorporate_processor board p s1 = (p', s2) ->
  In core (_all_cores p') -> is_kvm_core s2 core = true ->
  timeline s2 core <> 0 /\
  (forall other, In other (_all_cores p') -> is_kvm_core s2 other = true ->
     other <> core -> timeline s2 other <> timeline s2 core) /\
  (forall obj, In obj (sub_objects (get_simobject s2 core)) -> eventq_index obj = 0).
Proof.
  intros Hi Hinc Hc Hk.
  destruct (incorporate_timelines (init_prepare Hi) Hinc) as (Hkvm & Hdiff & _).
  destruct (Hkvm core Hc Hk) as (Hr & Hsub).
  split; [lia|]. split; [|exact Hsub].
  intros other Ho Hko Hne. now apply Hdiff.
Qed.

Lemma C4_private_timeline_witness :
  timeline Examples.heap_inc 1 <> 0 /\
  (forall other, In other (_all_cores Examples.proc_inc) ->
     is_kvm_core Examples.heap_inc other = true ->
     other <> 1 -> timeline Examples.heap_inc other <> timeline Examples.heap_inc 1) /\
  (forall obj, In obj (sub_objects (get_simobject Examples.heap_inc 1)) ->
     eventq_index obj = 0).
Proof.
  apply (C4_private_timeline
           Examples.two_by_two "base" Examples.heap0 Examples.proc_new Examples.heap_new
           Examples.board0 Examples.proc_inc Examples.heap_inc 1 eq_refl eq_refl);
    [cbn; auto | reflexivity].
Defined.

(** C4 as stated fails: after incorporation the KVM core 0 runs on timeline
    1, and the sub-objects of its model are on timeline 0, not on the
    timeline of the core. *)
Lemma C4_counterexample :
  In 0 (_all_cores Examples.proc_inc) /\
  is_kvm_core Examples.heap_inc 0 = true /\
  timeline Examples.heap_inc 0 = 1 /\
  sub_objects (get_simobject Examples.heap_inc 0) <> [] /\
  forall obj, In obj (sub_objects (get_simobject Examples.heap_inc 0)) ->
    eventq_index obj = 0 /\ eventq_index obj <> timeline Examples.heap_inc 0.
Proof.
  split; [cbn; auto|]. split; [reflexivity|]. split; [reflexivity|].
  split; [discriminate|].
  intros obj Hobj. cbn in Hobj.
  repeat (destruct Hobj as [<-|Hobj]; [cbn; split; [reflexivity|discriminate]|]).
  contradiction.
Qed.

(** ** The constructor check of SimpleSwitchableHetProcessor *)

Import SimpleSwitchableHetProcessor.

Lemma check_core_counts_fails {CPUTypes : Type} (core_types : list (core_type CPUTypes)) :
  Exists (fun c => (snd c <= 0)%Z) core_types ->
  check_core_counts core_types
  = Some (AssertionError "Number of cores must be a positive integer!").
Proof.
  induction core_types as [|c rest IH]; intros H; [inversion H|].
  cbn [check_core_counts]. destruct (snd c <=? 0)%Z eqn:E; [reflexivity|].
  apply IH. inversion H as [? ? Hc|? ? Hr]; subst; [|assumption].
  apply Z.leb_gt in E. lia.
Qed.

Lemma check_core_counts_passes {CPUTypes : Type} (core_types : list (core_type CPUTypes)) :
  check_core_counts core_types = None <-> Forall (fun c => (0 < snd c)%Z) core_types.
Proof.
  induction core_types as [|c rest IH]; [split; [constructor|reflexivity]|].
  cbn [check_core_counts]. destruct (snd c <=? 0)%Z eqn:E.
  - apply Z.leb_le in E. split; [discriminate|].
    intros H. inversion H; subst. lia.
  - apply Z.leb_gt in E. rewrite IH. split.
    + intros H. now constructor.
    + intros H. now inversion H.
Qed.

Lemma check_core_counts_error {CPUTypes : Type} (core_types : list (core_type CPUTypes))
  (e : exn) :
  check_core_counts core_types = Some e ->
  e = AssertionError "Number of cores must be a positive integer!".
Proof.
  induction core_types as [|c rest IH]; [discriminate|].
  cbn [check_core_counts]. destruct (snd c <=? 0)%Z; [now intros [= <-] | exact IH].
Qed.

(** C10: the constructor of SimpleSwitchableHetProcessor raises the
    AssertionError of its first loop when an entry of [core_types] has a
    core count of zero or less, before any core object is created (the
    store and the next unused object identity are as before); the loop lets
    [core_types] pass exactly when every core count is positive, and only
    then can the constructor end in any other way than with that
    AssertionError. *)
Theorem C10_core_count_check (CPUTypes : Type)
  (get_mem_mode : CPUTypes -> MemMode.t)
  (core_types : list (core_type CPUTypes)) (isa : option ISA) (w : World) :
  (Exists (fun c => (snd c <= 0)%Z) core_types ->
     __init__ get_mem_mode core_types isa w
     = (inl (AssertionError "Number of cores must be a positive integer!"), w)) /\
  (check_core_counts core_types = None <->
     Forall (fun c => (0 < snd c)%Z) core_types) /\
  (forall r w', __init__ get_mem_mode core_types isa w = (r, w') ->
     r <> inl (AssertionError "Number of cores must be a positive integer!") ->
     Forall (fun c => (0 < snd c)%Z) core_types).
Proof.
  split; [|split].
  - intros H. unfold __init__. now rewrite (check_core_counts_fails _ H).
  - apply check_core_counts_passes.
  - intros r w' H Hr. apply check_core_counts_passes.
    unfold __init__ in H.
    destruct (check_core_counts core_types) as [e|] eqn:E; [|reflexivity].
    apply check_core_counts_error in E. subst e. injection H as <- _. congruence.
Qed.

Lemma C10_core_count_check_witness :
  __init__ Examples.mem_mode_of
    [(Examples.KVM, Examples.TIMING, 2%Z); (Examples.KVM, Examples.O3, 0%Z)]
    (Some X86) (Examples.heap0, 10)
  = (inl (AssertionError "Number of cores must be a positive integer!"), (Examples.heap0, 10)).
Proof.
  apply (proj1 (C10_core_count_check Examples.cpu_type Examples.mem_mode_of
                  [(Examples.KVM, Examples.TIMING, 2%Z); (Examples.KVM, Examples.O3, 0%Z)]
                  (Some X86) (Examples.heap0, 10))).
  apply Exists_cons_tl. apply Exists_cons_hd. cbn. lia.
Defined.

(** ** Two-configuration processors *)

Lemma new_cores_handles (cs : list BaseCPUCore) : forall w : World,
  fst (new_cores cs w) = seq (snd w) (length cs) /\
  snd (snd (new_cores cs w)) = snd w + length cs.
Proof.
  induction cs as [|c cs IH]; intros w; [cbn; split; [reflexivity|lia]|].
  cbn [new_cores new_core length seq].
  set (w1 := (update (snd w) (fun _ => c) (fst w), S (snd w))).
  destruct (IH w1) as [H1 H2]. destruct (new_cores cs w1) as [hs w2].
  cbn [fst snd] in *. subst hs. rewrite H2. cbn. split; [reflexivity|lia].
Qed.

(** The last steps of the constructor: the two lists of new cores go into the
    dictionary and the base class is initialised on ["start"]. *)
Lemma built_shape (cs1 cs2 : list BaseCPUCore) (w w1 w2 : World)
  (start switch : list handle) (b : SwitchableHetProcessor.t) (s : Heap) (m : MemMode.t) :
  length cs1 = length cs2 ->
  new_cores cs1 w = (start, w1) ->
  new_cores cs2 w1 = (switch, w2) ->
  SwitchableHetProcessor.__init__
    [("start"%string, start); ("switch"%string, switch)] "start" (fst w2) = (inr b, s) ->
  two_config_shape (mkTwoConfig b "start" "switch" true m) start switch.
Proof.
  intros Hlen H1 H2 Hi.
  destruct (new_cores_handles cs1 w) as [Hs1 Hn1]. rewrite H1 in Hs1, Hn1.
  destruct (new_cores_handles cs2 w1) as [Hs2 _]. rewrite H2 in Hs2.
  cbn [fst snd] in *.
  destruct (init_inv Hi) as (cur & Hl & Hc & _ & Hcur & Hd & _).
  cbn in Hl. injection Hl as <-. cbn in Hcur.
  pose proof (isa_count_nonempty _ _ Hc) as Hne.
  unfold two_config_shape. cbn [base _start_key _switch_key _current_is_start].
  repeat split; try assumption.
  - subst. now rewrite !length_seq.
  - subst start switch. rewrite Hn1. destruct cs1 as [|c cs1]; [exfalso; apply Hne; reflexivity|].
    rewrite <- Hlen. cbn. intros [= H _]. lia.
Qed.

Lemma core_init_inv (cores : list (CoreSwitchableHetProcessor.BaseCPU * CoreSwitchableHetProcessor.BaseCPU))
  (isa : ISA) (w : World) (tc : TwoConfig) (w' : World) :
  CoreSwitchableHetProcessor.__init__ cores isa w = (inr tc, w') ->
  exists start switch s,
    two_config_shape tc start switch /\ _current_is_start tc = true /\
    SwitchableHetProcessor.__init__
      [("start"%string, start); ("switch"%string, switch)] "start" s
    = (inr (base tc), fst w').
Proof.
  unfold CoreSwitchableHetProcessor.__init__.
  destruct cores as [|proc0 rest]; [discriminate|].
  set (cores := proc0 :: rest).
  destruct (new_cores (map (fun proc => CoreSwitchableHetProcessor.wrap isa (fst proc)) cores) w)
    as [start w1] eqn:E1.
  destruct (new_cores (map (fun proc => CoreSwitchableHetProcessor.wrap isa (snd proc)) cores) w1)
    as [switch w2] eqn:E2.
  destruct (SwitchableHetProcessor.__init__ _ "start" (fst w2)) as [[e|b] s] eqn:Ei;
    [discriminate|].
  intros [= <- <-]. exists start, switch. eexists.
  split; [|split; [reflexivity|exact Ei]].
  eapply built_shape; try eassumption. now rewrite !length_map.
Qed.

Lemma switch_of_eq (cls : two_config_class) :
  switch_of cls = CoreSwitchableHetProcessor.switch.
Proof. destruct cls; reflexivity. Qed.

(** [switch()] in terms of the call it makes. *)
Lemma toggle_ok_inv {tc : TwoConfig} {s : Heap} {r : unit} {tc1 : TwoConfig} {s1 : Heap} :
  CoreSwitchableHetProcessor.switch tc s = (inr r, tc1, s1) ->
  SwitchableHetProcessor.switch_to_processor (other_key tc) (base tc) s
    = (inr r, base tc1, s1) /\
  tc1 = mkTwoConfig (base tc1) (_start_key tc) (_switch_key tc)
          (negb (_current_is_start tc)) (_mem_mode tc).
Proof.
  unfold CoreSwitchableHetProcessor.switch. fold (other_key tc).
  destruct (SwitchableHetProcessor.switch_to_processor (other_key tc) (base tc) s)
    as [[[e|r'] b] s']; [discriminate|].
  intros [= <- <- <-]. split; reflexivity.
Qed.

Lemma toggle_error_inv {tc : TwoConfig} {s : Heap} {e : exn} {tc1 : TwoConfig} {s1 : Heap} :
  CoreSwitchableHetProcessor.switch tc s = (inl e, tc1, s1) ->
  SwitchableHetProcessor.switch_to_processor (other_key tc) (base tc) s
    = (inl e, base tc, s) /\ tc1 = tc /\ s1 = s.
Proof.
  unfold CoreSwitchableHetProcessor.switch. fold (other_key tc).
  destruct (SwitchableHetProcessor.switch_to_processor (other_key tc) (base tc) s)
    as [[[e'|r'] b] s'] eqn:E; [|discriminate].
  destruct (switch_error_unchanged E) as [-> ->].
  intros [= <- <- <-]. destruct tc. repeat split; reflexivity.
Qed.









(** ** The scenarios of the specification *)

(** [{"base": [A0, A1], "alt": [B0, B1]}] started at ["base"]: after
    incorporation the current cores are [A0, A1], both switched in, and
    [B0], [B1] are switched out; after [switch_to_processor("alt")] the
    current cores are [B0, B1]. *)
Example scenario_base_alt :
  SwitchableHetProcessor.__init__ Examples.two_by_two "base" Examples.heap0
    = (inr Examples.proc_new, Examples.heap_new) /\
  SwitchableHetProcessor.get_cores Examples.proc_inc = [0; 1] /\
  map (fun core => switched_out (Examples.heap_inc core)) [0; 1; 2; 3]
    = [false; false; true; true] /\
  fst (fst Examples.to_alt) = inr tt /\
  SwitchableHetProcessor.get_cores Examples.proc_alt = [2; 3] /\
  map (fun core => switched_out (Examples.heap_alt core)) [0; 1; 2; 3]
    = [true; true; false; false] /\
  map (timeline Examples.heap_alt) [0; 1; 2; 3] = [1; 2; 0; 0].
Proof. repeat split. Qed.

(** A single configuration: every switch fails. *)
Example scenario_single_configuration (key : string) (cores : list handle)
  (p : SwitchableHetProcessor.t) (s : Heap) :
  SwitchableHetProcessor._switchable_cores p = [("base"%string, cores)] ->
  SwitchableHetProcessor._current_cores p = cores ->
  exists msg,
    SwitchableHetProcessor.switch_to_processor key p s = (inl (AssertionError msg), p, s).
Proof.
  intros Hd Hcur. unfold SwitchableHetProcessor.switch_to_processor.
  destruct (SwitchableHetProcessor._board p) as [system|]; [|eexists; reflexivity].
  rewrite Hd, Hcur. cbn [lookup].
  destruct (String.eqb key "base"); [|eexists; reflexivity].
  assert (E : list_eqb cores cores = true) by now apply list_eqb_eq.
  rewrite E. eexists; reflexivity.
Qed.

(** [switch()] on a two-configuration processor, called twice: the
    processor is back on its start cores, with the flags as they were. *)
Example scenario_toggle_twice :
  fst (fst Examples.toggle1) = inr tt /\
  SwitchableHetProcessor.get_cores (base (snd (fst Examples.toggle1))) = [12; 13] /\
  Examples.toggle2 = (inr tt, Examples.tc_inc, snd Examples.toggle2) /\
  map (fun core => switched_out (snd Examples.toggle2 core)) [10; 11; 12; 13]
    = map (fun core => switched_out (Examples.s_inc core)) [10; 11; 12; 13].
Proof. repeat split. Qed.

(** The constructor of SimpleSwitchableHetProcessor stops at the name
    [SimpleCore]. *)
Example scenario_simple :
  Examples.simple_built = (inl (NameError "SimpleCore"), (Examples.heap0, 10)).
Proof. reflexivity. Qed.

(** * Further properties of the code *)

(** ** Construction of a SwitchableHetProcessor *)

(** The store after a successful construction: instruction sets, KVM
    capabilities and models are as before. *)
Lemma init_keeps {d : Dict} {start : string} {s : Heap}
  {p : SwitchableHetProcessor.t} {s1 : Heap} :
  SwitchableHetProcessor.__init__ d start s = (inr p, s1) ->
  forall core,
    core_isa (s1 core) = core_isa (s core) /\
    core_kvm (s1 core) = core_kvm (s core) /\
    simobject (s1 core) = simobject (s core).
Proof.
  intros H core. destruct (init_inv H) as (cur & _ & _ & -> & _).
  apply init_loop_frame.
Qed.




Lemma nodup_single {A : Type} (dec : forall x y : A, {x = y} + {x <> y}) (l : list A) :
  length (nodup dec l) = 1 -> forall x y, In x l -> In y l -> x = y.
Proof.
  intros H x y Hx Hy.
  apply (nodup_In dec) in Hx. apply (nodup_In dec) in Hy.
  destruct (nodup dec l) as [|a [|b rest]]; try discriminate H.
  destruct Hx as [<-|[]]. destruct Hy as [<-|[]]. reflexivity.
Qed.

(** A processor that has been built.  Its starting configuration is not
    empty and all cores of that configuration have the instruction set that
    was handed to the base class.  Its current cores are those of the
    starting configuration, unless a configuration is named
    ["_current_cores"]: line 81 has then put the processor on the cores of
    that configuration, whatever the starting configuration is.  It has no
    attribute [_board], unless a configuration is named ["_board"]: the
    attribute is then the core list of that configuration. *)
Theorem init_current_cores (d : Dict) (start : string) (s : Heap)
  (p : SwitchableHetProcessor.t) (s1 : Heap) :
  SwitchableHetProcessor.__init__ d start s = (inr p, s1) ->
  exists cur,
    lookup start d = Some cur /\ cur <> [] /\
    (forall core, In core cur -> get_isa s1 core = SwitchableHetProcessor._isa p) /\
    SwitchableHetProcessor.get_cores p
    = match bound "_current_cores" d with Some l => l | None => cur end /\
    SwitchableHetProcessor._board p = option_map Rebound (bound "_board" d) /\
    (~ In "_current_cores"%string (keys d) ->
       lookup start d = Some (SwitchableHetProcessor.get_cores p) /\
       SwitchableHetProcessor.get_num_cores p <> 0) /\
    (~ In "_board"%string (keys d) -> SwitchableHetProcessor._board p = None).
Proof.
  intros H. pose proof (init_keeps H) as Hframe.
  destruct (init_inv H) as (cur & Hl & Hc & _ & Hcur & _ & Hb & _).
  pose proof (isa_count_nonempty _ _ Hc) as Hne.
  rewrite init_loop_current in Hcur.
  exists cur. split; [exact Hl|]. split; [exact Hne|].
  split; [|split; [exact Hcur|split; [exact Hb|split]]].
  - destruct (init_unfold d start s cur Hl Hc) as (core0 & rest & -> & Hi).
    rewrite Hi in H.
    destruct (bound "_all_cores" d); [discriminate|].
    destruct (bound "_switchable_cores" d); [discriminate|].
    injection H as <- _. cbn [SwitchableHetProcessor._isa].
    intros core Hcore. unfold get_isa. destruct (Hframe core) as (-> & _).
    apply (nodup_single ISA_eq_dec _ Hc).
    + apply in_map_iff. exists core. split; [reflexivity|]. exact Hcore.
    + apply in_map_iff. exists core0. split; [reflexivity|]. now left.
  - intros Hn. unfold SwitchableHetProcessor.get_num_cores, SwitchableHetProcessor.get_cores.
    rewrite Hcur, (bound_absent _ _ Hn). split; [exact Hl|].
    destruct cur; [congruence|discriminate].
  - intros Hn. now rewrite Hb, (bound_absent _ _ Hn).
Qed.

Lemma init_current_cores_witness :
  exists cur,
    lookup "base" Examples.named_current = Some cur /\ cur <> [] /\
    (forall core, In core cur ->
       get_isa Examples.current_heap core = SwitchableHetProcessor._isa Examples.current_new) /\
    SwitchableHetProcessor.get_cores Examples.current_new
    = match bound "_current_cores" Examples.named_current with
      | Some l => l
      | None => cur
      end /\
    SwitchableHetProcessor._board Examples.current_new
    = option_map Rebound (bound "_board" Examples.named_current) /\
    (~ In "_current_cores"%string (keys Examples.named_current) ->
       lookup "base" Examples.named_current
       = Some (SwitchableHetProcessor.get_cores Examples.current_new) /\
       SwitchableHetProcessor.get_num_cores Examples.current_new <> 0) /\
    (~ In "_board"%string (keys Examples.named_current) ->
       SwitchableHetProcessor._board Examples.current_new = None).
Proof.
  exact (init_current_cores Examples.named_current "base" Examples.heap0
           Examples.current_new Examples.current_heap eq_refl).
Defined.

(** A processor prepares for KVM exactly when one of the cores of one of
    its configurations, current or not, is a KVM core; it owns a KvmVM
    object exactly then. *)
Theorem init_prepare_kvm (d : Dict) (start : string) (s : Heap)
  (p : SwitchableHetProcessor.t) (s1 : Heap) :
  SwitchableHetProcessor.__init__ d start s = (inr p, s1) ->
  (SwitchableHetProcessor._prepare_kvm p = true <->
     exists name core_list core,
       In (name, core_list) d /\ In core core_list /\ is_kvm_core s core = true) /\
  (SwitchableHetProcessor.kvm_vm p = Some (Own mkKvmVM) <->
     SwitchableHetProcessor._prepare_kvm p = true).
Proof.
  intros H. pose proof (init_keeps H) as Hframe.
  pose proof (init_prepare H) as Hp.
  destruct (init_inv H) as (cur & Hstart & Hone & _ & _ & Hd & _).
  split.
  - rewrite Hp. unfold SwitchableHetProcessor._all_cores. rewrite Hd, existsb_exists. split.
    + intros (core & Hc & Hk). apply in_concat in Hc. destruct Hc as (l & Hl & Hc).
      apply in_map_iff in Hl. destruct Hl as ([name l'] & <- & Hl).
      exists name, l', core. repeat split; try assumption.
      unfold is_kvm_core in *. now destruct (Hframe core) as (_ & <- & _).
    + intros (name & l & core & Hl & Hc & Hk). exists core. split.
      * eapply In_all_values; eassumption.
      * unfold is_kvm_core in *. now destruct (Hframe core) as (_ & -> & _).
  - destruct (init_unfold d start s cur Hstart Hone) as (core0 & rest & _ & Hi).
    rewrite Hi in H.
    destruct (bound "_all_cores" d); [discriminate|].
    destruct (bound "_switchable_cores" d); [discriminate|].
    injection H as <- <-. cbn.
    destruct (existsb _ _); [split; reflexivity|].
    destruct (bound "kvm_vm" d); cbn; split; discriminate.
Qed.

Lemma init_prepare_kvm_witness :
  (SwitchableHetProcessor._prepare_kvm Examples.proc_new = true <->
     exists name core_list core,
       In (name, core_list) Examples.two_by_two /\ In core core_list /\
       is_kvm_core Examples.heap0 core = true) /\
  (SwitchableHetProcessor.kvm_vm Examples.proc_new = Some (Own mkKvmVM) <->
     SwitchableHetProcessor._prepare_kvm Examples.proc_new = true).
Proof.
  exact (init_prepare_kvm Examples.two_by_two "base" Examples.heap0
           Examples.proc_new Examples.heap_new eq_refl).
Defined.

(** ** Incorporation *)

Lemma incorporate_attached (board : AbstractBoard) (p : SwitchableHetProcessor.t) (s : Heap) :
  fst (SwitchableHetProcessor.incorporate_processor board p s) = attached board p.
Proof.
  unfold SwitchableHetProcessor.incorporate_processor, attached.
  destruct (SwitchableHetProcessor._prepare_kvm p) eqn:E; cbn; now rewrite ?E.
Qed.

(** [incorporate_processor] records the board on the processor and changes
    nothing else of it; in the store it keeps the switched-out flag, the
    instruction set and the KVM capability of every core, and leaves alone
    every core that is not a KVM core and every core that is in no
    configuration; without a KVM core it leaves the whole store as it is. *)
Theorem incorporate_frame (d : Dict) (start : string) (s : Heap)
  (p : SwitchableHetProcessor.t) (s1 : Heap)
  (board : AbstractBoard) (p' : SwitchableHetProcessor.t) (s2 : Heap) :
  SwitchableHetProcessor.__init__ d start s = (inr p, s1) ->
  SwitchableHetProcessor.incorporate_processor board p s1 = (p', s2) ->
  p' = attached board p /\
  (forall core,
     switched_out (s2 core) = switched_out (s1 core) /\
     core_isa (s2 core) = core_isa (s1 core) /\
     core_kvm (s2 core) = core_kvm (s1 core)) /\
  (forall core, is_kvm_core s1 core = false -> s2 core = s1 core) /\
  (forall core, ~ In core (SwitchableHetProcessor._all_cores p) -> s2 core = s1 core) /\
  ((forall core, In core (SwitchableHetProcessor._all_cores p) ->
      is_kvm_core s1 core = false) -> s2 = s1).
Proof.
  intros Hi Hinc.
  pose proof (incorporate_attached board p s1) as Hp. rewrite Hinc in Hp. cbn in Hp.
  destruct (incorporate_inv Hinc) as (_ & _ & _ & Hf).
  split; [exact Hp|]. split; [|split; [|split]].
  - intros core. destruct (Hf core) as (H1 & H2 & H3). auto.
  - intros core Hk.
    destruct (incorporate_timelines (init_prepare Hi) Hinc) as (_ & _ & Hrest).
    apply Hrest. unfold is_kvm_core in *. now destruct (Hf core) as (_ & -> & _).
  - intros core Hout. unfold SwitchableHetProcessor.incorporate_processor in Hinc.
    destruct (SwitchableHetProcessor._prepare_kvm p); injection Hinc as _ <-; [|reflexivity].
    unfold enumerate.
    destruct (assign_from (filter (is_kvm_core s1) (SwitchableHetProcessor._all_cores p)) 0 s1)
      as (Hkeep & _).
    apply Hkeep. intros Hin. apply filter_In in Hin. tauto.
  - intros Hnone. pose proof (init_prepare Hi) as Hprep.
    unfold SwitchableHetProcessor.incorporate_processor in Hinc.
    destruct (SwitchableHetProcessor._prepare_kvm p); [|now injection Hinc as _ <-].
    symmetry in Hprep. apply existsb_exists in Hprep. destruct Hprep as (core & Hc & Hk).
    rewrite (Hnone core Hc) in Hk. discriminate.
Qed.

Lemma incorporate_frame_witness :
  Examples.proc_inc = attached Examples.board0 Examples.proc_new /\
  switched_out (Examples.heap_inc 2) = switched_out (Examples.heap_new 2) /\
  Examples.heap_inc 3 = Examples.heap_new 3 /\
  Examples.heap_inc 8 = Examples.heap_new 8.
Proof.
  destruct (incorporate_frame Examples.two_by_two "base" Examples.heap0
              Examples.proc_new Examples.heap_new Examples.board0
              Examples.proc_inc Examples.heap_inc eq_refl eq_refl)
    as (Hp & Hf & Hplain & Hout & _).
  split; [exact Hp|]. split; [apply Hf|]. split; [apply Hplain; reflexivity|].
  apply Hout. cbn. lia.
Defined.

(** The numbering of the loop over [enumerate(kvm_cores)] when no core is
    listed twice: the core at position [i] ends on timeline [k + i + 1]. *)
Lemma assign_from_numbering (l : list handle) : forall (k : nat) (s : Heap),
  NoDup l ->
  map (timeline (fold_left SwitchableHetProcessor.assign_eventq
                   (combine (seq k (length l)) l) s)) l
  = seq (k + 1) (length l).
Proof.
  induction l as [|h t IH]; intros k s Hnd; [reflexivity|].
  inversion Hnd as [|? ? Hh Ht]; subst.
  cbn [length seq combine fold_left map]. f_equal.
  - destruct (assign_from t (S k) (SwitchableHetProcessor.assign_eventq s (k, h)))
      as (Hkeep & _).
    cbn zeta in Hkeep. unfold timeline, get_simobject. rewrite (Hkeep h Hh).
    now rewrite assign_eventq_same.
  - rewrite IH by assumption. f_equal; lia.
Qed.

(** When the KVM cores of the configurations are different objects, the
    timelines they get are 1, 2, ..., in the order of the dictionary and,
    within a configuration, of its slots. *)
Theorem incorporate_numbering (d : Dict) (start : string) (s : Heap)
  (p : SwitchableHetProcessor.t) (s1 : Heap)
  (board : AbstractBoard) (p' : SwitchableHetProcessor.t) (s2 : Heap) :
  SwitchableHetProcessor.__init__ d start s = (inr p, s1) ->
  SwitchableHetProcessor.incorporate_processor board p s1 = (p', s2) ->
  NoDup (filter (is_kvm_core s) (concat (values d))) ->
  map (timeline s2) (filter (is_kvm_core s) (concat (values d)))
  = seq 1 (length (filter (is_kvm_core s) (concat (values d)))).
Proof.
  intros Hi Hinc Hnd.
  pose proof (init_prepare Hi) as Hprep. pose proof (init_keeps Hi) as Hkeep.
  destruct (init_inv Hi) as (cur & _ & _ & _ & _ & Hd & _).
  assert (Hfilter : filter (is_kvm_core s) (concat (values d))
                    = filter (is_kvm_core s1) (SwitchableHetProcessor._all_cores p)).
  { unfold SwitchableHetProcessor._all_cores. rewrite Hd. apply filter_ext.
    intros core. unfold is_kvm_core. now destruct (Hkeep core) as (_ & -> & _). }
  rewrite Hfilter in *.
  unfold SwitchableHetProcessor.incorporate_processor in Hinc.
  destruct (SwitchableHetProcessor._prepare_kvm p).
  - injection Hinc as _ <-. unfold enumerate.
    exact (assign_from_numbering _ 0 s1 Hnd).
  - destruct (filter (is_kvm_core s1) (SwitchableHetProcessor._all_cores p))
      as [|core rest] eqn:E; [reflexivity|].
    exfalso. symmetry in Hprep. rewrite <- not_true_iff_false in Hprep. apply Hprep.
    apply existsb_exists. exists core.
    apply filter_In. rewrite E. now left.
Qed.

Lemma incorporate_numbering_witness :
  map (timeline Examples.heap_inc) [0; 1] = [1; 2].
Proof.
  apply (incorporate_numbering Examples.two_by_two "base" Examples.heap0
           Examples.proc_new Examples.heap_new Examples.board0
           Examples.proc_inc Examples.heap_inc eq_refl eq_refl).
  cbn. repeat constructor; cbn; lia.
Defined.

Lemma zero_descendants_idem (o : SimObject) :
  zero_descendants (zero_descendants o) = zero_descendants o.
Proof.
  induction o as [i cs IH] using SimObject_induction.
  cbn [zero_descendants]. f_equal. rewrite map_map.
  apply map_ext_in. intros c Hc. rewrite Forall_forall in IH. now apply IH.
Qed.

Lemma children_zero (o : SimObject) :
  children (zero_descendants o) = map zero_descendants (children o).
Proof. now destruct o. Qed.

Lemma assign_eventq_value (s : Heap) (i : nat) (core : handle) :
  SwitchableHetProcessor.assign_eventq s (i, core) core
  = mkCore (core_isa (s core)) (core_kvm (s core)) (switched_out (s core))
      (SimObj (i + 1) (map zero_descendants (children (simobject (s core))))).
Proof.
  unfold SwitchableHetProcessor.assign_eventq, map_simobject.
  rewrite !update_same. cbn. unfold set_eventq_index. now rewrite children_zero.
Qed.

Lemma assign_eventq_similar (s t : Heap) (ic : nat * handle) :
  same_up_to_timelines s t ->
  same_up_to_timelines (SwitchableHetProcessor.assign_eventq s ic)
                       (SwitchableHetProcessor.assign_eventq t ic) /\
  SwitchableHetProcessor.assign_eventq s ic (snd ic)
  = SwitchableHetProcessor.assign_eventq t ic (snd ic).
Proof.
  intros Hst. destruct ic as [i h]. cbn [snd].
  destruct (Hst h) as (H1 & H2 & H3 & H4).
  assert (Heq : SwitchableHetProcessor.assign_eventq s (i, h) h
                = SwitchableHetProcessor.assign_eventq t (i, h) h).
  { rewrite !assign_eventq_value. now rewrite H1, H2, H3, H4. }
  split; [|exact Heq].
  intros x. destruct (Nat.eq_dec x h) as [->|Hx].
  - now rewrite Heq.
  - rewrite !assign_eventq_other by assumption. apply Hst.
Qed.

(** Started in two stores that differ in timelines only, the loop over the
    KVM cores ends with every listed core in the same state. *)
Lemma assign_all_similar (l : list (nat * handle)) : forall s t : Heap,
  same_up_to_timelines s t ->
  forall x, In x (map snd l) \/ s x = t x ->
    fold_left SwitchableHetProcessor.assign_eventq l s x
    = fold_left SwitchableHetProcessor.assign_eventq l t x.
Proof.
  induction l as [|ic l IH]; intros s t Hst x Hx; cbn [fold_left map In] in *.
  - destruct Hx as [[]|Hx]. exact Hx.
  - destruct (assign_eventq_similar s t ic Hst) as (Hst1 & Hhead).
    apply IH; [exact Hst1|].
    destruct (Nat.eq_dec x (snd ic)) as [->|Hne]; [now right|].
    destruct Hx as [[Hx|Hx]|Hx]; [congruence | now left | right].
    destruct ic as [i h]. cbn [snd] in Hne. now rewrite !assign_eventq_other.
Qed.

Lemma assign_all_same_up_to (l : list (nat * handle)) : forall s : Heap,
  same_up_to_timelines s (fold_left SwitchableHetProcessor.assign_eventq l s).
Proof.
  induction l as [|[i h] l IH]; intros s x; cbn [fold_left]; [auto|].
  destruct (IH (SwitchableHetProcessor.assign_eventq s (i, h)) x) as (H1 & H2 & H3 & H4).
  rewrite <- H1, <- H2, <- H3, <- H4.
  destruct (Nat.eq_dec x h) as [->|Hx].
  - rewrite assign_eventq_value. cbn. repeat split.
    rewrite map_map. symmetry. apply map_ext. intros c. apply zero_descendants_idem.
  - rewrite assign_eventq_other by assumption. auto.
Qed.

Lemma snd_enumerate {A : Type} (l : list A) : map snd (enumerate l) = l.
Proof. unfold enumerate. apply map_snd_combine. now rewrite length_seq. Qed.

(** Incorporating a processor a second time, on the same or on another
    board, changes no core: the timelines are what the first incorporation
    made them, and only the board of the processor is replaced. *)
Theorem incorporate_twice (board board' : AbstractBoard)
  (p : SwitchableHetProcessor.t) (s1 : Heap)
  (p' : SwitchableHetProcessor.t) (s2 : Heap)
  (p'' : SwitchableHetProcessor.t) (s3 : Heap) :
  SwitchableHetProcessor.incorporate_processor board p s1 = (p', s2) ->
  SwitchableHetProcessor.incorporate_processor board' p' s2 = (p'', s3) ->
  p'' = attached board' p /\ forall core, s3 core = s2 core.
Proof.
  intros H1 H2.
  pose proof (incorporate_attached board p s1) as Hp'. rewrite H1 in Hp'. cbn in Hp'.
  pose proof (incorporate_attached board' p' s2) as Hp''. rewrite H2 in Hp''. cbn in Hp''.
  split; [now rewrite Hp'', Hp'|].
  destruct (incorporate_inv H1) as (_ & _ & _ & Hf).
  unfold SwitchableHetProcessor.incorporate_processor in H1, H2.
  rewrite Hp' in H2. cbn [attached SwitchableHetProcessor._prepare_kvm] in H2.
  destruct (SwitchableHetProcessor._prepare_kvm p);
    [|injection H1 as _ <-; injection H2 as _ <-; reflexivity].
  injection H2 as _ <-. intros core.
  assert (Hl : filter (is_kvm_core s2)
                 (SwitchableHetProcessor._all_cores (attached board p))
               = filter (is_kvm_core s1) (SwitchableHetProcessor._all_cores p)).
  { apply filter_ext. intros x. unfold is_kvm_core. now destruct (Hf x) as (_ & -> & _). }
  rewrite Hl. injection H1 as _ H1. clear Hl Hf Hp' Hp''. subst s2.
  set (l := enumerate (filter (is_kvm_core s1) (SwitchableHetProcessor._all_cores p))) in *.
  destruct (in_dec Nat.eq_dec core (map snd l)) as [Hin|Hout].
  - symmetry. apply assign_all_similar; [|now left].
    apply assign_all_same_up_to.
  - subst l. rewrite snd_enumerate in Hout. unfold enumerate.
    match goal with
    | |- fold_left _ _ ?s core = _ =>
        destruct (assign_from
                    (filter (is_kvm_core s1) (SwitchableHetProcessor._all_cores p)) 0 s)
          as (Hkeep & _)
    end.
    now apply Hkeep.
Qed.

Lemma incorporate_twice_witness :
  fst (SwitchableHetProcessor.incorporate_processor Examples.board0
         Examples.proc_inc Examples.heap_inc)
  = attached Examples.board0 Examples.proc_new /\
  forall core,
    snd (SwitchableHetProcessor.incorporate_processor Examples.board0
           Examples.proc_inc Examples.heap_inc) core
    = Examples.heap_inc core.
Proof.
  exact (incorporate_twice Examples.board0 Examples.board0
           Examples.proc_new Examples.heap_new Examples.proc_inc Examples.heap_inc
           _ _ eq_refl eq_refl).
Defined.

(** ** The outcomes of switch_to_processor *)

(** [switch_to_processor] succeeds exactly when the attribute [_board] of
    the processor is a board, the key is in the dictionary, its core list differs from
    the list of current cores but has the same length, and the substrate
    does not refuse the slot-by-slot pairs of the two lists. *)
Theorem switch_succeeds_iff (key : string) (p : SwitchableHetProcessor.t) (s : Heap) :
  (exists p' s', SwitchableHetProcessor.switch_to_processor key p s = (inr tt, p', s')) <->
  (exists board to_switch,
     SwitchableHetProcessor._board p = Some (Own board) /\
     lookup key (SwitchableHetProcessor._switchable_cores p) = Some to_switch /\
     to_switch <> SwitchableHetProcessor._current_cores p /\
     length to_switch = length (SwitchableHetProcessor._current_cores p) /\
     swap_refused board (combine (SwitchableHetProcessor._current_cores p) to_switch) s
       = false).
Proof.
  split.
  - intros (p' & s' & H).
    destruct (switch_ok_inv H) as (board & to & Hb & Hl & Hne & Hlen & Hsw & _).
    exists board, to. repeat split; try assumption.
    now destruct (switchCpus_inv (eq_sym Hlen) Hsw) as (Hr & _).
  - intros (board & to & Hb & Hl & Hne & Hlen & Hr).
    unfold SwitchableHetProcessor.switch_to_processor. rewrite Hb, Hl.
    destruct (list_eqb to (SwitchableHetProcessor._current_cores p)) eqn:E;
      [apply list_eqb_eq in E; contradiction|].
    rewrite Hlen, Nat.eqb_refl. cbn [negb]. unfold switchCpus. rewrite Hr.
    do 2 eexists. reflexivity.
Qed.

(** The errors of [switch_to_processor], in the order the checks are made,
    each with its message and with the processor and the store untouched:
    no attribute [_board]; unknown key; the key of the current core list; a
    core list of another length; and, past all checks, a failure of the
    substrate, which is certain when the attribute [_board] is not a board
    but the core list of a configuration of that name. *)
Theorem switch_errors (key : string) (p : SwitchableHetProcessor.t) (s : Heap) :
  (SwitchableHetProcessor._board p = None ->
     SwitchableHetProcessor.switch_to_processor key p s
     = (inl (AssertionError "The processor has not been incorporated."), p, s)) /\
  (forall system, SwitchableHetProcessor._board p = Some system ->
     (lookup key (SwitchableHetProcessor._switchable_cores p) = None ->
        SwitchableHetProcessor.switch_to_processor key p s
        = (inl (AssertionError
                  ("Key " ++ key ++ " is not a key in the switchable_processor dictionary.")),
           p, s)) /\
     (forall to_switch,
        lookup key (SwitchableHetProcessor._switchable_cores p) = Some to_switch ->
        (to_switch = SwitchableHetProcessor._current_cores p ->
           SwitchableHetProcessor.switch_to_processor key p s
           = (inl (AssertionError "Cannot swap current cores with the current cores"), p, s)) /\
        (length to_switch <> length (SwitchableHetProcessor._current_cores p) ->
           SwitchableHetProcessor.switch_to_processor key p s
           = (inl (AssertionError
                     ("The number of cores to swap in is not the same as the number " ++
                      "already swapped in. This is not allowed.")), p, s)) /\
        (to_switch <> SwitchableHetProcessor._current_cores p ->
         length to_switch = length (SwitchableHetProcessor._current_cores p) ->
         (forall board, system = Own board ->
            swap_refused board (combine (SwitchableHetProcessor._current_cores p) to_switch) s
            = true) ->
           SwitchableHetProcessor.switch_to_processor key p s
           = (inl SubstrateError, p, s))))%string.
Proof.
  unfold SwitchableHetProcessor.switch_to_processor. split.
  - intros ->. reflexivity.
  - intros system ->. split; [intros ->; reflexivity|].
    intros to ->. split; [|split].
    + intros ->.
      assert (E : list_eqb (SwitchableHetProcessor._current_cores p)
                    (SwitchableHetProcessor._current_cores p) = true)
        by now apply list_eqb_eq.
      now rewrite E.
    + intros Hlen.
      destruct (list_eqb to (SwitchableHetProcessor._current_cores p)) eqn:E;
        [apply list_eqb_eq in E; subst; contradiction|].
      apply Nat.eqb_neq in Hlen. now rewrite Hlen.
    + intros Hne Hlen Hr.
      destruct (list_eqb to (SwitchableHetProcessor._current_cores p)) eqn:E;
        [apply list_eqb_eq in E; contradiction|].
      rewrite Hlen, Nat.eqb_refl. cbn [negb]. unfold switchCpus.
      destruct system as [board|l]; [|reflexivity].
      now rewrite (Hr board eq_refl).
Qed.

Lemma switch_errors_witness :
  SwitchableHetProcessor.switch_to_processor "alt" Examples.proc_new Examples.heap_new
  = (inl (AssertionError "The processor has not been incorporated."),
     Examples.proc_new, Examples.heap_new) /\
  SwitchableHetProcessor.switch_to_processor "alt" MoreExamples.proc_uneven Examples.heap0
  = (inl (AssertionError
            ("The number of cores to swap in is not the same as the number " ++
             "already swapped in. This is not allowed.")),
     MoreExamples.proc_uneven, Examples.heap0)%string /\
  SwitchableHetProcessor.switch_to_processor "_board" Examples.board_new Examples.board_heap
  = (inl SubstrateError, Examples.board_new, Examples.board_heap).
Proof.
  split; [|split].
  - apply (proj1 (switch_errors "alt" Examples.proc_new Examples.heap_new)). reflexivity.
  - apply (proj1 (proj2 (proj2 (proj2 (switch_errors "alt" MoreExamples.proc_uneven
                                         Examples.heap0)
                                   (Own Examples.board0) eq_refl) [2] eq_refl))).
    cbn. lia.
  - apply (proj2 (proj2 (proj2 (proj2 (switch_errors "_board" Examples.board_new
                                         Examples.board_heap)
                                   (Rebound [3]) eq_refl) [3] eq_refl)));
      [discriminate | reflexivity | discriminate].
Defined.

(** ** Invariants of a processor in use *)

Lemma switch_fields {key : string} {p : SwitchableHetProcessor.t} {s : Heap}
  {r : exn + unit} {p' : SwitchableHetProcessor.t} {s' : Heap} :
  SwitchableHetProcessor.switch_to_processor key p s = (r, p', s') ->
  SwitchableHetProcessor._switchable_cores p' = SwitchableHetProcessor._switchable_cores p /\
  SwitchableHetProcessor._board p' = SwitchableHetProcessor._board p /\
  SwitchableHetProcessor._isa p' = SwitchableHetProcessor._isa p /\
  SwitchableHetProcessor._prepare_kvm p' = SwitchableHetProcessor._prepare_kvm p /\
  length (SwitchableHetProcessor._current_cores p')
  = length (SwitchableHetProcessor._current_cores p) /\
  (p' = p \/ lookup key (SwitchableHetProcessor._switchable_cores p)
             = Some (SwitchableHetProcessor._current_cores p')) /\
  (forall x, core_isa (s' x) = core_isa (s x) /\
             core_kvm (s' x) = core_kvm (s x) /\
             simobject (s' x) = simobject (s x)).
Proof.
  intros H. destruct r as [e|r].
  - destruct (switch_error_unchanged H) as [-> ->]. repeat split; auto.
  - destruct (switch_ok_inv H) as (board & to & Hb & Hl & Hne & Hlen & Hsw & ->).
    destruct (switchCpus_inv (eq_sym Hlen) Hsw) as (_ & Hf).
    cbn [switched SwitchableHetProcessor._switchable_cores SwitchableHetProcessor._board
         SwitchableHetProcessor._isa SwitchableHetProcessor._prepare_kvm
         SwitchableHetProcessor._current_cores].
    split; [reflexivity|]. split; [reflexivity|]. split; [reflexivity|].
    split; [reflexivity|]. split; [assumption|]. split; [now right|].
    intros x. now destruct (Hf x) as (_ & ? & ? & ?).
Qed.

(** Over any run of switches, successful or not, the dictionary, the board,
    the instruction set and the number of current cores of the processor
    stay what they were, and so do the instruction set, the KVM capability
    and the model of every core, timelines included: a switch moves
    switched-out flags and the list of current cores, nothing else. *)
Theorem switches_keep (p : SwitchableHetProcessor.t) (s : Heap)
  (p' : SwitchableHetProcessor.t) (s' : Heap) :
  Switches p s p' s' ->
  SwitchableHetProcessor._switchable_cores p' = SwitchableHetProcessor._switchable_cores p /\
  SwitchableHetProcessor._board p' = SwitchableHetProcessor._board p /\
  SwitchableHetProcessor._isa p' = SwitchableHetProcessor._isa p /\
  SwitchableHetProcessor.get_num_cores p' = SwitchableHetProcessor.get_num_cores p /\
  (forall core,
     core_isa (s' core) = core_isa (s core) /\
     core_kvm (s' core) = core_kvm (s core) /\
     simobject (s' core) = simobject (s core)) /\
  (forall core, timeline s' core = timeline s core).
Proof.
  assert (Hmain : Switches p s p' s' ->
    SwitchableHetProcessor._switchable_cores p' = SwitchableHetProcessor._switchable_cores p /\
    SwitchableHetProcessor._board p' = SwitchableHetProcessor._board p /\
    SwitchableHetProcessor._isa p' = SwitchableHetProcessor._isa p /\
    SwitchableHetProcessor.get_num_cores p' = SwitchableHetProcessor.get_num_cores p /\
    (forall core,
       core_isa (s' core) = core_isa (s core) /\
       core_kvm (s' core) = core_kvm (s core) /\
       simobject (s' core) = simobject (s core))).
  { induction 1 as [p s | p s p1 s1 key r p2 s2 Hrun IH Hcall].
    - repeat split; reflexivity.
    - destruct IH as (I1 & I2 & I3 & I4 & I5).
      destruct (switch_fields Hcall) as (F1 & F2 & F3 & _ & F5 & _ & F7).
      unfold SwitchableHetProcessor.get_num_cores in *.
      rewrite F1, F2, F3, F5. repeat split; try assumption.
      all: destruct (F7 core) as (G1 & G2 & G3); destruct (I5 core) as (J1 & J2 & J3);
        congruence. }
  intros H. destruct (Hmain H) as (H1 & H2 & H3 & H4 & H5).
  repeat split; try assumption; try apply H5.
  intros core. unfold timeline, get_simobject. now destruct (H5 core) as (_ & _ & ->).
Qed.

Lemma switches_keep_witness :
  SwitchableHetProcessor.get_num_cores (snd (fst Examples.to_xyx))
  = SwitchableHetProcessor.get_num_cores Examples.proc3 /\
  forall core, timeline (snd Examples.to_xyx) core = timeline Examples.heap3 core.
Proof.
  destruct (switches_keep Examples.proc3 Examples.heap3
              (snd (fst Examples.to_xyx)) (snd Examples.to_xyx)) as (_ & _ & _ & Hn & _ & Ht).
  - apply (Switches_call Examples.proc3 Examples.heap3
             (snd (fst Examples.to_xy)) (snd Examples.to_xy) "x" (inr tt)); [|reflexivity].
    apply (Switches_call Examples.proc3 Examples.heap3
             (snd (fst Examples.to_x)) (snd Examples.to_x) "y" (inr tt)); [|reflexivity].
    apply (Switches_call Examples.proc3 Examples.heap3
             Examples.proc3 Examples.heap3 "x" (inr tt)); [|reflexivity].
    apply Switches_none.
  - split; [exact Hn | exact Ht].
Defined.

(** A run of switches keeps the flags in agreement with the list of current
    cores. *)
Lemma Switches_flags (p : SwitchableHetProcessor.t) (s : Heap)
  (p' : SwitchableHetProcessor.t) (s' : Heap) :
  Switches p s p' s' -> flags_consistent p s -> flags_consistent p' s'.
Proof.
  induction 1 as [p s | p s p1 s1 key r p2 s2 Hrun IH Hcall]; intros Hc; [exact Hc|].
  destruct r as [e|r].
  - destruct (switch_error_unchanged Hcall) as [-> ->]. now apply IH.
  - exact (switch_flags Hcall (IH Hc)).
Qed.

(** What a run of switches keeps of the processor. *)
Lemma Switches_fields (p : SwitchableHetProcessor.t) (s : Heap)
  (p' : SwitchableHetProcessor.t) (s' : Heap) :
  Switches p s p' s' ->
  SwitchableHetProcessor._switchable_cores p' = SwitchableHetProcessor._switchable_cores p /\
  SwitchableHetProcessor._board p' = SwitchableHetProcessor._board p /\
  length (SwitchableHetProcessor._current_cores p')
  = length (SwitchableHetProcessor._current_cores p) /\
  (p' = p \/ exists key, lookup key (SwitchableHetProcessor._switchable_cores p)
                         = Some (SwitchableHetProcessor._current_cores p')).
Proof.
  induction 1 as [p s | p s p1 s1 key r p2 s2 Hrun IH Hcall]; [auto|].
  destruct IH as (I1 & I2 & I3 & I4).
  destruct (switch_fields Hcall) as (F1 & F2 & _ & _ & F5 & F6 & _).
  rewrite F1, F2, F5. repeat split; try assumption.
  destruct F6 as [->|F6]; [exact I4|]. right. exists key. now rewrite <- I1.
Qed.

(** A processor in use, that is built, incorporated and then switched any
    number of times, is attached to the board of its incorporation and
    keeps its dictionary; its current cores are at all times the core list
    of one of its configurations, and that list is never empty when no
    configuration is named ["_current_cores"]. *)
Theorem incorporated_on_a_configuration (d : Dict) (start : string) (s : Heap)
  (p : SwitchableHetProcessor.t) (s1 : Heap) (board : AbstractBoard)
  (p1 : SwitchableHetProcessor.t) (s2 : Heap)
  (p' : SwitchableHetProcessor.t) (s' : Heap) :
  SwitchableHetProcessor.__init__ d start s = (inr p, s1) ->
  SwitchableHetProcessor.incorporate_processor board p s1 = (p1, s2) ->
  Switches p1 s2 p' s' ->
  SwitchableHetProcessor._board p' = Some (Own board) /\
  SwitchableHetProcessor._switchable_cores p' = d /\
  (exists key, In (key, SwitchableHetProcessor.get_cores p') d) /\
  (~ In "_current_cores"%string (keys d) ->
     SwitchableHetProcessor.get_num_cores p' <> 0).
Proof.
  intros Hi Hinc Hrun.
  destruct (incorporate_inv Hinc) as (H1 & H2 & H3 & _).
  destruct (init_inv Hi) as (cur & Hl & Hc & _ & Hcur & Hd & _).
  rewrite init_loop_current in Hcur.
  destruct (Switches_fields _ _ _ _ Hrun) as (F1 & F2 & F3 & F4).
  unfold SwitchableHetProcessor.get_num_cores, SwitchableHetProcessor.get_cores.
  rewrite F1, F2, F3, H1, H2, H3, Hd, Hcur.
  split; [reflexivity|]. split; [reflexivity|]. split.
  - destruct F4 as [->|(key & F4)].
    + rewrite H1, Hcur. destruct (bound "_current_cores" d) as [l|] eqn:Eb.
      * exists "_current_cores"%string. now apply bound_In.
      * exists start. now apply lookup_In.
    + exists key. apply lookup_In. now rewrite H2, Hd in F4.
  - intros Hn. rewrite (bound_absent _ _ Hn).
    pose proof (isa_count_nonempty _ _ Hc). now destruct cur.
Qed.

Lemma three_switches :
  Switches Examples.proc3 Examples.heap3 (snd (fst Examples.to_xyx)) (snd Examples.to_xyx).
Proof.
  apply (Switches_call Examples.proc3 Examples.heap3
           (snd (fst Examples.to_xy)) (snd Examples.to_xy) "x" (inr tt)); [|reflexivity].
  apply (Switches_call Examples.proc3 Examples.heap3
           (snd (fst Examples.to_x)) (snd Examples.to_x) "y" (inr tt)); [|reflexivity].
  apply (Switches_call Examples.proc3 Examples.heap3
           Examples.proc3 Examples.heap3 "x" (inr tt)); [|reflexivity].
  apply Switches_none.
Defined.

Lemma not_named (name : string) (d : Dict) :
  forallb (fun k => negb (String.eqb name k)) (keys d) = true -> ~ In name (keys d).
Proof.
  intros H Hin. rewrite forallb_forall in H. specialize (H name Hin).
  now rewrite String.eqb_refl in H.
Defined.

Lemma incorporated_on_a_configuration_witness :
  SwitchableHetProcessor._board (snd (fst Examples.to_xyx)) = Some (Own Examples.board0) /\
  SwitchableHetProcessor._switchable_cores (snd (fst Examples.to_xyx)) = Examples.three /\
  (exists key, In (key, SwitchableHetProcessor.get_cores (snd (fst Examples.to_xyx)))
                 Examples.three) /\
  (~ In "_current_cores"%string (keys Examples.three) ->
     SwitchableHetProcessor.get_num_cores (snd (fst Examples.to_xyx)) <> 0).
Proof.
  exact (incorporated_on_a_configuration Examples.three "z" Examples.heap0
           Examples.proc3_new Examples.heap3_new Examples.board0
           Examples.proc3 Examples.heap3 _ _ eq_refl eq_refl three_switches).
Defined.

(** At all times in the life of a processor built from a dictionary without
    a configuration named ["_current_cores"], a core of any of its
    configurations is switched out exactly when it is not one of the
    current cores (the flags being written, at a switch, as the swap
    primitive is modelled). *)
Theorem incorporated_flags (d : Dict) (start : string) (s : Heap)
  (p : SwitchableHetProcessor.t) (s1 : Heap) (board : AbstractBoard)
  (p1 : SwitchableHetProcessor.t) (s2 : Heap)
  (p' : SwitchableHetProcessor.t) (s' : Heap) :
  SwitchableHetProcessor.__init__ d start s = (inr p, s1) ->
  ~ In "_current_cores"%string (keys d) ->
  SwitchableHetProcessor.incorporate_processor board p s1 = (p1, s2) ->
  Switches p1 s2 p' s' ->
  forall name core_list core,
    In (name, core_list) d -> In core core_list ->
    (switched_out (s' core) = false <-> In core (SwitchableHetProcessor.get_cores p')).
Proof.
  intros Hi Hn Hinc Hrun name l core Hl Hc.
  pose proof (Switches_flags _ _ _ _ Hrun
                (incorporate_flags Hinc (init_flags Hi (bound_absent _ _ Hn)))) as Hflags.
  destruct (Switches_fields _ _ _ _ Hrun) as (F1 & _).
  destruct (incorporate_inv Hinc) as (_ & H2 & _).
  destruct (init_inv Hi) as (cur & _ & _ & _ & _ & Hd & _).
  rewrite Hflags.
  - unfold SwitchableHetProcessor.get_cores. rewrite <- mem_In.
    destruct (mem core (SwitchableHetProcessor._current_cores p')); cbn; intuition congruence.
  - unfold SwitchableHetProcessor._all_cores. rewrite F1, H2, Hd.
    eapply In_all_values; eassumption.
Qed.

Lemma incorporated_flags_witness :
  switched_out (snd Examples.to_xyx 2) = false <->
  In 2 (SwitchableHetProcessor.get_cores (snd (fst Examples.to_xyx))).
Proof.
  apply (incorporated_flags Examples.three "z" Examples.heap0
           Examples.proc3_new Examples.heap3_new Examples.board0
           Examples.proc3 Examples.heap3 _ _ eq_refl
           (not_named "_current_cores" Examples.three eq_refl) eq_refl three_switches
           "x"%string [2; 3] 2); cbn; auto.
Defined.

(** The round trip: on a processor built from a dictionary without a
    configuration named ["_current_cores"], incorporated and switched any
    number of times, [switch_to_processor(X)], then
    [switch_to_processor(Y)], then [switch_to_processor(X)], all three
    successful, end with the processor as it was after the first of them
    (its current cores are those of [X]) and with the switched-out flag of
    every core as it was then (the flags being written as the swap
    primitive is modelled). *)
Theorem round_trip (d : Dict) (start : string) (s : Heap)
  (p : SwitchableHetProcessor.t) (s' : Heap) (board : AbstractBoard)
  (q : SwitchableHetProcessor.t) (t : Heap) (X Y : string)
  (p0 : SwitchableHetProcessor.t) (s0 : Heap)
  (p1 : SwitchableHetProcessor.t) (s1 : Heap)
  (p2 : SwitchableHetProcessor.t) (s2 : Heap)
  (p3 : SwitchableHetProcessor.t) (s3 : Heap) :
  SwitchableHetProcessor.__init__ d start s = (inr p, s') ->
  ~ In "_current_cores"%string (keys d) ->
  SwitchableHetProcessor.incorporate_processor board p s' = (q, t) ->
  Switches q t p0 s0 ->
  SwitchableHetProcessor.switch_to_processor X p0 s0 = (inr tt, p1, s1) ->
  SwitchableHetProcessor.switch_to_processor Y p1 s1 = (inr tt, p2, s2) ->
  SwitchableHetProcessor.switch_to_processor X p2 s2 = (inr tt, p3, s3) ->
  p3 = p1 /\
  lookup X (SwitchableHetProcessor._switchable_cores p3)
  = Some (SwitchableHetProcessor.get_cores p3) /\
  forall core, switched_out (s3 core) = switched_out (s1 core).
Proof.
  intros Hi Hn Hinc Hrun H1 H2 H3.
  pose proof (Switches_flags _ _ _ _ Hrun
                (incorporate_flags Hinc (init_flags Hi (bound_absent _ _ Hn)))) as Hc0.
  pose proof (switch_flags H1 Hc0) as Hc1.
  destruct (switch_ok_inv H1) as (b1 & cx & Hb1 & Hl1 & _ & _ & _ & ->).
  destruct (switch_ok_inv H2) as (b2 & cy & Hb2 & Hl2 & _ & Hlen2 & Hsw2 & ->).
  destruct (switch_ok_inv H3) as (b3 & cx' & Hb3 & Hl3 & _ & Hlen3 & Hsw3 & ->).
  unfold SwitchableHetProcessor.get_cores.
  cbn [switched SwitchableHetProcessor._current_cores
       SwitchableHetProcessor._switchable_cores SwitchableHetProcessor._board] in *.
  assert (cx' = cx) as -> by congruence.
  split; [reflexivity|]. split; [assumption|].
  destruct (switchCpus_inv (eq_sym Hlen2) Hsw2) as (_ & Hf2).
  destruct (switchCpus_inv (eq_sym Hlen3) Hsw3) as (_ & Hf3).
  intros core. destruct (Hf3 core) as (-> & _). destruct (Hf2 core) as (-> & _).
  destruct (mem core cx) eqn:Ex.
  - rewrite Hc1; cbn [switched SwitchableHetProcessor._current_cores]; [now rewrite Ex|].
    apply mem_In in Ex. apply lookup_In in Hl1.
    eapply In_all_values; eassumption.
  - destruct (mem core cy) eqn:Ey; [|reflexivity].
    rewrite Hc1; cbn [switched SwitchableHetProcessor._current_cores]; [now rewrite Ex|].
    apply mem_In in Ey. apply lookup_In in Hl2.
    eapply In_all_values; eassumption.
Qed.

Lemma round_trip_witness :
  snd (fst Examples.to_xyx) = snd (fst Examples.to_x) /\
  lookup "x" (SwitchableHetProcessor._switchable_cores (snd (fst Examples.to_xyx)))
    = Some (SwitchableHetProcessor.get_cores (snd (fst Examples.to_xyx))) /\
  forall core, switched_out (snd Examples.to_xyx core) = switched_out (snd Examples.to_x core).
Proof.
  apply (round_trip Examples.three "z" Examples.heap0
           Examples.proc3_new Examples.heap3_new Examples.board0
           Examples.proc3 Examples.heap3 "x" "y" Examples.proc3 Examples.heap3
           (snd (fst Examples.to_x)) (snd Examples.to_x)
           (snd (fst Examples.to_xy)) (snd Examples.to_xy)
           (snd (fst Examples.to_xyx)) (snd Examples.to_xyx) eq_refl
           (not_named "_current_cores" Examples.three eq_refl) eq_refl
           (Switches_none _ _)); reflexivity.
Defined.

(** A processor with a single configuration can never be switched: every
    call raises an AssertionError and changes nothing. *)
Theorem single_configuration_never_switches
  (name : string) (cores : list handle) (s : Heap)
  (p : SwitchableHetProcessor.t) (s1 : Heap) (board : AbstractBoard)
  (p' : SwitchableHetProcessor.t) (s2 : Heap) (key : string) :
  SwitchableHetProcessor.__init__ [(name, cores)] name s = (inr p, s1) ->
  SwitchableHetProcessor.incorporate_processor board p s1 = (p', s2) ->
  exists msg,
    SwitchableHetProcessor.switch_to_processor key p' s2
    = (inl (AssertionError msg), p', s2).
Proof.
  intros Hi Hinc.
  destruct (incorporate_inv Hinc) as (H1 & H2 & H3 & _).
  destruct (init_inv Hi) as (cur & Hl & _ & _ & Hcur & Hd & _).
  cbn in Hl. rewrite String.eqb_refl in Hl. injection Hl as <-.
  assert (Hcur' : SwitchableHetProcessor._current_cores p = cores).
  { rewrite Hcur. cbn. now destruct (String.eqb name "_current_cores"). }
  unfold SwitchableHetProcessor.switch_to_processor.
  rewrite H3, H2, H1, Hd, Hcur'. cbn [lookup].
  destruct (String.eqb key name); [|eexists; reflexivity].
  assert (E : list_eqb cores cores = true) by now apply list_eqb_eq.
  rewrite E. eexists; reflexivity.
Qed.

Lemma single_configuration_never_switches_witness :
  exists msg,
    SwitchableHetProcessor.switch_to_processor "base"
      (attached Examples.board0
         (SwitchableHetProcessor.mk X86 [2; 3] [("base"%string, [2; 3])] false None None))
      (snd (SwitchableHetProcessor.__init__ [("base"%string, [2; 3])] "base" Examples.heap0))
    = (inl (AssertionError msg),
       attached Examples.board0
         (SwitchableHetProcessor.mk X86 [2; 3] [("base"%string, [2; 3])] false None None),
       snd (SwitchableHetProcessor.__init__ [("base"%string, [2; 3])] "base" Examples.heap0)).
Proof.
  apply (single_configuration_never_switches "base" [2; 3] Examples.heap0
           (SwitchableHetProcessor.mk X86 [2; 3] [("base"%string, [2; 3])] false None None)
           (snd (SwitchableHetProcessor.__init__ [("base"%string, [2; 3])] "base"
                   Examples.heap0))
           Examples.board0 _ _ "base"); reflexivity.
Defined.

(** ** The constructors of the two-configuration classes *)

(** The store after the creation of a list of cores. *)
Lemma new_cores_store (cs : list BaseCPUCore) : forall (s : Heap) (n : nat),
  (forall x, x < n \/ n + length cs <= x -> fst (snd (new_cores cs (s, n))) x = s x) /\
  (forall i c, nth_error cs i = Some c -> fst (snd (new_cores cs (s, n))) (n + i) = c).
Proof.
  induction cs as [|c cs IH]; intros s n.
  - split; [reflexivity|]. intros [|i] c H; discriminate H.
  - assert (Heq : fst (snd (new_cores (c :: cs) (s, n)))
                  = fst (snd (new_cores cs (update n (fun _ => c) s, S n)))).
    { cbn [new_cores new_core fst snd]. now destruct (new_cores cs _). }
    rewrite Heq. cbn [length].
    destruct (IH (update n (fun _ => c) s) (S n)) as (Hout & Hin). split.
    + intros x Hx. rewrite Hout by lia. apply update_other. lia.
    + intros [|i] c' H; cbn in H.
      * injection H as <-. rewrite Nat.add_0_r, Hout by lia. apply update_same.
      * replace (n + S i) with (S n + i) by lia. now apply Hin.
Qed.

Lemma flagged_eta (c : BaseCPUCore) : flagged c (switched_out c) = c.
Proof. now destruct c. Qed.

Lemma existsb_pointwise {A : Type} (f g : A -> bool) (l : list A) :
  (forall x, f x = g x) -> existsb f l = existsb g l.
Proof.
  intros H. induction l as [|a l IH]; [reflexivity|]. cbn. now rewrite H, IH.
Qed.

Lemma existsb_seq_nth {A : Type} (f : nat -> bool) (g : A -> bool) (cs : list A) :
  forall n, (forall i c, nth_error cs i = Some c -> f (n + i) = g c) ->
  existsb f (seq n (length cs)) = existsb g cs.
Proof.
  induction cs as [|c cs IH]; intros n H; [reflexivity|].
  cbn [length seq existsb]. f_equal.
  - rewrite <- (Nat.add_0_r n). now apply H.
  - apply IH. intros i c' Hc. replace (S n + i) with (n + S i) by lia. now apply H.
Qed.

(** What [__init__] returns on a starting configuration with one
    instruction set, when no configuration name begins with an underscore or
    is ["kvm_vm"]. *)
Lemma init_value (d : Dict) (start : string) (s : Heap) (core0 : nat) (rest : list nat) :
  lookup start d = Some (core0 :: rest) ->
  SwitchableHetProcessor.isa_count s (core0 :: rest) = 1 ->
  (forall k, In k (keys d) -> String.prefix "_" k = false) ->
  ~ In "kvm_vm"%string (keys d) ->
  SwitchableHetProcessor.__init__ d start s
  = (inr (SwitchableHetProcessor.mk (get_isa s core0) (core0 :: rest) d
            (existsb (is_kvm_core s) (concat (values d)))
            (if existsb (is_kvm_core s) (concat (values d)) then Some (Own mkKvmVM) else None)
            None),
     write_flags (fun c => c) (fun c => negb (mem c (core0 :: rest))) (concat (values d)) s).
Proof.
  intros Hl Hc Hnames Hkvm.
  destruct (init_unfold d start s _ Hl Hc) as (c0 & r0 & [= <- <-] & Hi).
  rewrite Hi.
  rewrite (bound_private "_all_cores" d), (bound_private "_switchable_cores" d),
    (bound_private "_board" d) by (reflexivity || assumption).
  rewrite (bound_absent _ _ Hkvm), init_loop_plain
    by (apply bound_private; [reflexivity|assumption]).
  cbn [fst snd option_map].
  assert (Hex : existsb (is_kvm_core
                           (write_flags (fun c => c) (fun c => negb (mem c (core0 :: rest)))
                              (concat (values d)) s))
                  (concat (values d))
                = existsb (is_kvm_core s) (concat (values d))).
  { apply existsb_pointwise. intros x. unfold is_kvm_core.
    now destruct (write_flags_frame _ (fun c => c)
                    (fun c => negb (mem c (core0 :: rest))) (concat (values d)) s x)
      as (_ & -> & _). }
  now rewrite Hex.
Qed.

(** The last steps of the constructor, when the cores created for the start
    configuration have one instruction set. *)
Lemma build_two (cs1 cs2 : list BaseCPUCore) (j : ISA) (s : Heap) (n : nat) :
  cs1 <> [] -> length cs1 = length cs2 ->
  (forall c, In c cs1 -> core_isa c = j) ->
  exists w1 w2 s',
    new_cores cs1 (s, n) = (seq n (length cs1), w1) /\
    new_cores cs2 w1 = (seq (n + length cs1) (length cs1), w2) /\
    snd w2 = n + 2 * length cs1 /\
    SwitchableHetProcessor.__init__
      [("start"%string, seq n (length cs1));
       ("switch"%string, seq (n + length cs1) (length cs1))] "start" (fst w2)
    = (inr (SwitchableHetProcessor.mk j (seq n (length cs1))
              [("start"%string, seq n (length cs1));
               ("switch"%string, seq (n + length cs1) (length cs1))]
              (existsb core_kvm (cs1 ++ cs2))
              (if existsb core_kvm (cs1 ++ cs2) then Some (Own mkKvmVM) else None) None),
       s') /\
    (forall i c, nth_error cs1 i = Some c -> s' (n + i) = flagged c false) /\
    (forall i c, nth_error cs2 i = Some c -> s' (n + length cs1 + i) = flagged c true) /\
    (forall x, x < n \/ n + 2 * length cs1 <= x -> s' x = s x).
Proof.
  intros Hne Hlen Hisa.
  remember (length cs1) as k eqn:Hk.
  destruct (new_cores_handles cs1 (s, n)) as [Hh1 Hn1].
  destruct (new_cores_store cs1 s n) as [Hout1 Hin1].
  destruct (new_cores cs1 (s, n)) as [start [s1 n1]] eqn:E1. cbn [fst snd] in *.
  rewrite <- Hk in Hh1, Hn1, Hout1. subst start n1.
  destruct (new_cores_handles cs2 (s1, n + k)) as [Hh2 Hn2].
  destruct (new_cores_store cs2 s1 (n + k)) as [Hout2 Hin2].
  destruct (new_cores cs2 (s1, n + k)) as [switch [s2 n2]] eqn:E2.
  cbn [fst snd] in *.
  rewrite <- Hlen in Hh2, Hn2, Hout2. subst switch n2.
  set (d := [("start"%string, seq n k); ("switch"%string, seq (n + k) k)]).
  assert (Hk0 : k <> 0) by (subst k; destruct cs1; [congruence|discriminate]).
  assert (Hlt1 : forall i c, nth_error cs1 i = Some c -> i < k).
  { intros i c Hc. rewrite Hk. apply nth_error_Some. congruence. }
  assert (Hlt2 : forall i c, nth_error cs2 i = Some c -> i < k).
  { intros i c Hc. rewrite Hlen. apply nth_error_Some. congruence. }
  assert (Hs2a : forall i c, nth_error cs1 i = Some c -> s2 (n + i) = c).
  { intros i c Hc. rewrite Hout2; [now apply Hin1|]. left. specialize (Hlt1 _ _ Hc). lia. }
  assert (Hc1 : SwitchableHetProcessor.isa_count s2 (seq n k) = 1).
  { apply isa_count_single with (i := j).
    - destruct k; [congruence|discriminate].
    - intros h Hh. apply in_seq in Hh.
      destruct (nth_error cs1 (h - n)) as [c|] eqn:Ec.
      + unfold get_isa. replace h with (n + (h - n)) by lia.
        rewrite (Hs2a _ _ Ec). apply Hisa. eapply nth_error_In; eassumption.
      + apply nth_error_None in Ec. lia. }
  assert (Hseq : seq n k = n :: seq (S n) (k - 1)).
  { destruct k; [congruence|]. cbn. now rewrite Nat.sub_0_r. }
  assert (Hhead : get_isa s2 n = j).
  { destruct cs1 as [|c0 cs1']; [congruence|].
    unfold get_isa. rewrite <- (Nat.add_0_r n), (Hs2a 0 c0 eq_refl).
    apply Hisa. now left. }
  assert (Hex : existsb (is_kvm_core s2) (concat (values d)) = existsb core_kvm (cs1 ++ cs2)).
  { cbn [d values map concat snd]. rewrite app_nil_r, !existsb_app. f_equal.
    - rewrite <- (existsb_seq_nth (is_kvm_core s2) core_kvm cs1 n); [now rewrite <- Hk|].
      intros i c Hc. unfold is_kvm_core. now rewrite (Hs2a _ _ Hc).
    - rewrite <- (existsb_seq_nth (is_kvm_core s2) core_kvm cs2 (n + k)); [now rewrite <- Hlen|].
      intros i c Hc. unfold is_kvm_core. now rewrite (Hin2 _ _ Hc). }
  assert (Hinit := init_value d "start" s2 n (seq (S n) (k - 1))).
  rewrite <- Hseq, Hhead, Hex in Hinit. specialize (Hinit eq_refl Hc1).
  assert (Hnames : forall name, In name (keys d) -> String.prefix "_" name = false).
  { intros name Hn. cbn in Hn. destruct Hn as [<-|[<-|[]]]; reflexivity. }
  assert (Hkvm : ~ In "kvm_vm"%string (keys d)).
  { cbn. intros [H|[H|[]]]; discriminate H. }
  specialize (Hinit Hnames Hkvm).
  set (marked := write_flags (fun c => c) (fun c => negb (mem c (seq n k)))
                   (concat (values d)) s2) in *.
  exists (s1, n + k), (s2, n + k + k), marked.
  split; [first [reflexivity | exact E1]|]. split; [exact E2|]. split; [cbn; lia|].
  split; [exact Hinit|].
  assert (Hflag : forall x out, In x (seq n k ++ seq (n + k) k) ->
            out = negb (mem x (seq n k)) -> marked x = flagged (s2 x) out).
  { intros x out Hx ->. rewrite <- (flagged_eta (marked x)). subst marked.
    rewrite (write_flags_In _ (fun c => c) (fun c => negb (mem c (seq n k)))
               (fun c => negb (mem c (seq n k))))
      by (try reflexivity; rewrite map_id; cbn; now rewrite app_nil_r).
    destruct (write_flags_frame _ (fun c => c) (fun c => negb (mem c (seq n k)))
                (concat (values d)) s2 x) as (F1 & F2 & F3).
    unfold flagged. now rewrite F1, F2, F3. }
  split; [|split].
  - intros i c Hc. specialize (Hlt1 _ _ Hc). rewrite Hflag with (out := false).
    + now rewrite (Hs2a _ _ Hc).
    + apply in_or_app. left. apply in_seq. lia.
    + assert (Hm : mem (n + i) (seq n k) = true) by (apply mem_In, in_seq; lia).
      now rewrite Hm.
  - intros i c Hc. specialize (Hlt2 _ _ Hc). rewrite Hflag with (out := true).
    + now rewrite (Hin2 _ _ Hc).
    + apply in_or_app. right. apply in_seq. lia.
    + assert (Hm : mem (n + k + i) (seq n k) = false)
        by (apply mem_not_In; rewrite in_seq; lia).
      now rewrite Hm.
  - intros x Hx. subst marked. rewrite write_flags_other.
    + rewrite Hout2 by lia. apply Hout1. lia.
    + rewrite map_id. cbn. rewrite app_nil_r, in_app_iff, !in_seq. lia.
Qed.

(** The constructor of CoreSwitchableHetProcessor on a non-empty list. *)
Lemma core_init_nonempty
  (cores : list (CoreSwitchableHetProcessor.BaseCPU * CoreSwitchableHetProcessor.BaseCPU))
  (isa : ISA) (s : Heap) (n : nat) :
  forall proc0 rest, cores = proc0 :: rest ->
     exists tc s',
       CoreSwitchableHetProcessor.__init__ cores isa (s, n)
       = (inr tc, (s', n + 2 * length cores)) /\
       SwitchableHetProcessor.get_cores (base tc) = seq n (length cores) /\
       SwitchableHetProcessor._switchable_cores (base tc)
       = [("start"%string, seq n (length cores));
          ("switch"%string, seq (n + length cores) (length cores))] /\
       SwitchableHetProcessor._isa (base tc) = isa /\
       SwitchableHetProcessor._board (base tc) = None /\
       _current_is_start tc = true /\
       _mem_mode tc = CoreSwitchableHetProcessor.memory_mode (fst proc0) /\
       (forall i proc, nth_error cores i = Some proc ->
          s' (n + i)
          = mkCore isa (CoreSwitchableHetProcessor.cpu_kvm (fst proc)) false
              (CoreSwitchableHetProcessor.cpu_object (fst proc)) /\
          s' (n + length cores + i)
          = mkCore isa (CoreSwitchableHetProcessor.cpu_kvm (snd proc)) true
              (CoreSwitchableHetProcessor.cpu_object (snd proc))) /\
       (forall x, x < n \/ n + 2 * length cores <= x -> s' x = s x).
Proof.
  intros proc0 rest Hcores.
  set (cs1 := map (fun proc => CoreSwitchableHetProcessor.wrap isa (fst proc)) cores).
  set (cs2 := map (fun proc => CoreSwitchableHetProcessor.wrap isa (snd proc)) cores).
  assert (Hunfold :
    CoreSwitchableHetProcessor.__init__ cores isa (s, n)
    = let (start, w1) := new_cores cs1 (s, n) in
      let (switch, w2) := new_cores cs2 w1 in
      match SwitchableHetProcessor.__init__
              [("start"%string, start); ("switch"%string, switch)] "start" (fst w2) with
      | (inl e, s0) => (inl e, (s0, snd w2))
      | (inr b, s0) =>
          (inr (mkTwoConfig b "start" "switch" true
                  (CoreSwitchableHetProcessor.memory_mode (fst proc0))), (s0, snd w2))
      end).
  { subst cs1 cs2. rewrite Hcores. reflexivity. }
  destruct (build_two cs1 cs2 isa s n) as (w1 & w2 & s' & E1 & E2 & Hn & Hi & H1 & H2 & Hout).
  { subst cs1. rewrite Hcores. discriminate. }
  { subst cs1 cs2. now rewrite !length_map. }
  { subst cs1. intros c Hc. apply in_map_iff in Hc. now destruct Hc as (proc & <- & _). }
  assert (Hlen : length cs1 = length cores) by (subst cs1; apply length_map).
  rewrite Hlen in *.
  rewrite Hunfold, E1. cbv beta iota. rewrite E2. cbv beta iota.
  unfold handle in *. rewrite Hi.
  destruct w2 as [s2 n2]. cbn [fst snd] in *. subst n2.
  do 2 eexists. split; [reflexivity|]. cbn.
  do 6 (split; [reflexivity|]). split; [|exact Hout].
  intros i proc Hp. split.
  - apply (H1 i (CoreSwitchableHetProcessor.wrap isa (fst proc))).
    exact (map_nth_error (fun proc => CoreSwitchableHetProcessor.wrap isa (fst proc))
             i cores Hp).
  - apply (H2 i (CoreSwitchableHetProcessor.wrap isa (snd proc))).
    exact (map_nth_error (fun proc => CoreSwitchableHetProcessor.wrap isa (snd proc))
             i cores Hp).
Qed.

(** [CoreSwitchableHetProcessor(cores, isa)] raises IndexError on an empty
    list, before anything is created, and succeeds on every other list:
    with [k] pairs and [n] the next unused identity, it creates the [k]
    start cores [n .. n+k-1] and then the [k] switch cores [n+k .. n+2k-1],
    wrapping the first and the second model of pair [i] in slot [i]; the
    start cores are current and switched in, the switch cores switched out
    (whatever their models said before); the memory mode is the one of the
    first model of the first pair; no older core is touched. *)
Theorem core_init_builds
  (cores : list (CoreSwitchableHetProcessor.BaseCPU * CoreSwitchableHetProcessor.BaseCPU))
  (isa : ISA) (s : Heap) (n : nat) :
  (cores = [] ->
     CoreSwitchableHetProcessor.__init__ cores isa (s, n) = (inl IndexError, (s, n))) /\
  (forall proc0 rest, cores = proc0 :: rest ->
     exists tc s',
       CoreSwitchableHetProcessor.__init__ cores isa (s, n)
       = (inr tc, (s', n + 2 * length cores)) /\
       SwitchableHetProcessor.get_cores (base tc) = seq n (length cores) /\
       SwitchableHetProcessor._switchable_cores (base tc)
       = [("start"%string, seq n (length cores));
          ("switch"%string, seq (n + length cores) (length cores))] /\
       SwitchableHetProcessor._isa (base tc) = isa /\
       SwitchableHetProcessor._board (base tc) = None /\
       _current_is_start tc = true /\
       _mem_mode tc = CoreSwitchableHetProcessor.memory_mode (fst proc0) /\
       (forall i proc, nth_error cores i = Some proc ->
          s' (n + i)
          = mkCore isa (CoreSwitchableHetProcessor.cpu_kvm (fst proc)) false
              (CoreSwitchableHetProcessor.cpu_object (fst proc)) /\
          s' (n + length cores + i)
          = mkCore isa (CoreSwitchableHetProcessor.cpu_kvm (snd proc)) true
              (CoreSwitchableHetProcessor.cpu_object (snd proc))) /\
       (forall x, x < n \/ n + 2 * length cores <= x -> s' x = s x)).
Proof.
  split; [intros ->; reflexivity|]. apply core_init_nonempty.
Qed.

Lemma core_init_builds_witness :
  exists tc s',
    Examples.core_built = (inr tc, (s', 10 + 2 * length Examples.cpus)) /\
    SwitchableHetProcessor.get_cores (base tc) = seq 10 (length Examples.cpus) /\
    SwitchableHetProcessor._switchable_cores (base tc)
    = [("start"%string, seq 10 (length Examples.cpus));
       ("switch"%string, seq (10 + length Examples.cpus) (length Examples.cpus))] /\
    SwitchableHetProcessor._isa (base tc) = X86 /\
    SwitchableHetProcessor._board (base tc) = None /\
    _current_is_start tc = true /\
    _mem_mode tc = CoreSwitchableHetProcessor.memory_mode (fst (Examples.kvm_cpu, Examples.dummy_cpu)) /\
    (forall i proc, nth_error Examples.cpus i = Some proc ->
       s' (10 + i)
       = mkCore X86 (CoreSwitchableHetProcessor.cpu_kvm (fst proc)) false
           (CoreSwitchableHetProcessor.cpu_object (fst proc)) /\
       s' (10 + length Examples.cpus + i)
       = mkCore X86 (CoreSwitchableHetProcessor.cpu_kvm (snd proc)) true
           (CoreSwitchableHetProcessor.cpu_object (snd proc))) /\
    (forall x, x < 10 \/ 10 + 2 * length Examples.cpus <= x -> s' x = Examples.heap0 x).
Proof.
  exact (proj2 (core_init_builds Examples.cpus X86 Examples.heap0 10)
           (Examples.kvm_cpu, Examples.dummy_cpu)
           [(Examples.kvm_cpu, Examples.dummy_cpu)] eq_refl).
Defined.

(** The sum of line 192 counts the entries of the lists of lines 200-204. *)
Lemma config_length {CPUTypes : Type}
  (proj : SimpleSwitchableHetProcessor.core_type CPUTypes -> CPUTypes)
  (core_types : list (SimpleSwitchableHetProcessor.core_type CPUTypes)) :
  Forall (fun c => (0 < snd c)%Z) core_types ->
  length (SimpleSwitchableHetProcessor.config_of proj core_types)
  = Z.to_nat (SimpleSwitchableHetProcessor.total_num_cores core_types).
Proof.
  intros Hpos. unfold SimpleSwitchableHetProcessor.total_num_cores.
  assert (Hgen : forall a, (0 <= a)%Z ->
            Z.to_nat (fold_left Z.add (map snd core_types) a)
            = Z.to_nat a + length (SimpleSwitchableHetProcessor.config_of proj core_types)).
  { induction Hpos as [|c rest Hc Hrest IH]; intros a Ha; cbn [map fold_left].
    - cbn. lia.
    - rewrite IH by lia. unfold SimpleSwitchableHetProcessor.config_of.
      cbn [flat_map]. rewrite length_app, repeat_length, Z2Nat.inj_add by lia.
      fold (SimpleSwitchableHetProcessor.config_of proj rest). lia. }
  rewrite (Hgen 0%Z) by lia. reflexivity.
Qed.

(** With positive counts the sum of line 192 is positive. *)
Lemma total_positive {CPUTypes : Type}
  (ct0 : SimpleSwitchableHetProcessor.core_type CPUTypes)
  (rest : list (SimpleSwitchableHetProcessor.core_type CPUTypes)) :
  Forall (fun c => (0 < snd c)%Z) (ct0 :: rest) ->
  Z.to_nat (SimpleSwitchableHetProcessor.total_num_cores (ct0 :: rest)) <> 0.
Proof.
  intros Hpos.
  rewrite <- (config_length (fun ct => fst (fst ct)) (ct0 :: rest) Hpos).
  assert (Hc0 : (0 < snd ct0)%Z) by now inversion Hpos.
  unfold SimpleSwitchableHetProcessor.config_of. cbn [flat_map].
  rewrite length_app, repeat_length. lia.
Qed.

(** [SimpleSwitchableHetProcessor(core_types, isa)] never returns a
    processor, and never creates or touches a core.  It raises the
    AssertionError of the count check when a count is zero or less,
    IndexError at line 198 on an empty list, and otherwise NameError: with
    positive counts the first list comprehension has at least one round,
    and that round evaluates the name [SimpleCore], which the module
    neither defines nor imports. *)
Theorem simple_init_raises (CPUTypes : Type)
  (get_mem_mode : CPUTypes -> MemMode.t)
  (core_types : list (SimpleSwitchableHetProcessor.core_type CPUTypes))
  (isa : option ISA) (w : World) :
  exists e,
    SimpleSwitchableHetProcessor.__init__ get_mem_mode core_types isa w = (inl e, w) /\
    (Exists (fun c => (snd c <= 0)%Z) core_types ->
       e = AssertionError "Number of cores must be a positive integer!") /\
    (core_types = [] -> e = IndexError) /\
    (core_types <> [] -> Forall (fun c => (0 < snd c)%Z) core_types ->
       e = NameError "SimpleCore").
Proof.
  unfold SimpleSwitchableHetProcessor.__init__.
  destruct (SimpleSwitchableHetProcessor.check_core_counts core_types) as [e|] eqn:E.
  - pose proof (check_core_counts_error _ _ E) as ->.
    eexists. split; [reflexivity|]. split; [reflexivity|]. split.
    + intros ->. discriminate E.
    + intros _ Hpos. apply check_core_counts_passes in Hpos. congruence.
  - pose proof (proj1 (check_core_counts_passes core_types) E) as Hpos.
    destruct core_types as [|ct0 rest].
    + eexists. split; [reflexivity|]. split; [intros H; inversion H|].
      split; [reflexivity|congruence].
    + pose proof (total_positive ct0 rest Hpos) as Htotal. cbv zeta.
      destruct (Z.to_nat (SimpleSwitchableHetProcessor.total_num_cores (ct0 :: rest)))
        as [|total]; [congruence|].
      cbn [seq SimpleSwitchableHetProcessor.simple_cores].
      eexists. split; [reflexivity|]. split; [|split; [discriminate|reflexivity]].
      intros Hex. exfalso. apply Exists_exists in Hex. destruct Hex as (c & Hc & Hle).
      rewrite Forall_forall in Hpos. specialize (Hpos c Hc). cbn in Hpos. lia.
Qed.

(** ** switch() *)

(** [switch()] flips [_current_is_start] exactly when its call of
    [switch_to_processor] has succeeded: a call that raises, for whatever
    reason, leaves the whole object and the store as they were. *)
Theorem switch_flips_on_success_only (cls : two_config_class) (tc : TwoConfig) (s : Heap)
  (r : exn + unit) (tc' : TwoConfig) (s' : Heap) :
  switch_of cls tc s = (r, tc', s') ->
  (forall e, r = inl e -> tc' = tc /\ s' = s) /\
  (forall u, r = inr u ->
     _current_is_start tc' = negb (_current_is_start tc) /\
     _start_key tc' = _start_key tc /\ _switch_key tc' = _switch_key tc /\
     _mem_mode tc' = _mem_mode tc /\
     SwitchableHetProcessor.switch_to_processor (other_key tc) (base tc) s
     = (inr u, base tc', s')) /\
  SwitchableHetProcessor.switch_to_processor (other_key tc) (base tc) s = (r, base tc', s').
Proof.
  rewrite switch_of_eq. intros H. destruct r as [e|u].
  - destruct (toggle_error_inv H) as (Hcall & -> & ->).
    split; [auto|]. split; [discriminate|exact Hcall].
  - destruct (toggle_ok_inv H) as (Hcall & Htc).
    split; [discriminate|]. split; [|exact Hcall].
    intros u' [= <-]. rewrite Htc at 1 2 3 4. cbn. auto.
Qed.

Lemma switch_flips_on_success_only_witness :
  _current_is_start (snd (fst Examples.toggle1)) = negb (_current_is_start Examples.tc_inc) /\
  _mem_mode (snd (fst Examples.toggle1)) = _mem_mode Examples.tc_inc.
Proof.
  destruct (switch_flips_on_success_only CoreClass Examples.tc_inc Examples.s_inc
              (inr tt) (snd (fst Examples.toggle1)) (snd Examples.toggle1) eq_refl)
    as (_ & Hok & _).
  destruct (Hok tt eq_refl) as (Hflag & _ & _ & Hm & _). split; assumption.
Defined.

(** A direct call of [switch_to_processor] on a two-configuration
    processor is not seen by [switch()]: after a successful direct switch
    to the configuration [switch()] would have asked for,
    [_current_is_start] is what it was, so [switch()] asks for the
    configuration that is now current, raises the AssertionError of line
    143 and changes nothing, however often it is called. *)
Theorem direct_switch_breaks_toggle (cls : two_config_class) (tc : TwoConfig) (s : Heap)
  (b' : SwitchableHetProcessor.t) (s' : Heap) :
  SwitchableHetProcessor.switch_to_processor (other_key tc) (base tc) s = (inr tt, b', s') ->
  switch_of cls (with_base tc b') s'
  = (inl (AssertionError "Cannot swap current cores with the current cores"),
     with_base tc b', s').
Proof.
  intros Hcall. rewrite switch_of_eq.
  destruct (switch_ok_inv Hcall) as (board & to & Hb & Hl & _ & _ & _ & ->).
  unfold CoreSwitchableHetProcessor.switch.
  change (if _current_is_start (with_base tc (switched (base tc) to))
          then _switch_key (with_base tc (switched (base tc) to))
          else _start_key (with_base tc (switched (base tc) to)))
    with (other_key tc).
  unfold SwitchableHetProcessor.switch_to_processor.
  cbn [with_base base switched SwitchableHetProcessor._board
       SwitchableHetProcessor._switchable_cores SwitchableHetProcessor._current_cores].
  rewrite Hb, Hl.
  assert (E : list_eqb to to = true) by now apply list_eqb_eq.
  rewrite E. reflexivity.
Qed.

Lemma direct_switch_breaks_toggle_witness :
  switch_of CoreClass
    (with_base Examples.tc_inc (base (snd (fst Examples.toggle1)))) (snd Examples.toggle1)
  = (inl (AssertionError "Cannot swap current cores with the current cores"),
     with_base Examples.tc_inc (base (snd (fst Examples.toggle1))), snd Examples.toggle1).
Proof.
  apply (direct_switch_breaks_toggle CoreClass Examples.tc_inc Examples.s_inc).
  reflexivity.
Defined.

(** ** Start cores on KVM models *)

Lemma filter_all {A : Type} (f : A -> bool) (l : list A) :
  (forall x, In x l -> f x = true) -> filter f l = l.
Proof.
  induction l as [|a l IH]; intros H; [reflexivity|].
  cbn. rewrite (H a) by now left. f_equal. apply IH. intros x Hx. apply H. now right.
Qed.

Lemma filter_none {A : Type} (f : A -> bool) (l : list A) :
  (forall x, In x l -> f x = false) -> filter f l = [].
Proof.
  induction l as [|a l IH]; intros H; [reflexivity|].
  cbn. rewrite (H a) by now left. apply IH. intros x Hx. apply H. now right.
Qed.

Lemma map_seq_nth (f : nat -> nat) (k : nat) : forall n b,
  map f (seq n k) = seq b k -> forall i, i < k -> f (n + i) = b + i.
Proof.
  induction k as [|k IH]; intros n b H i Hi; [lia|].
  cbn [seq map] in H. injection H as H0 Ht. destruct i as [|i].
  - now rewrite !Nat.add_0_r.
  - rewrite !Nat.add_succ_r. apply (IH (S n) (S b) Ht i). lia.
Qed.

(** A CoreSwitchableHetProcessor whose start models are all KVM models and
    whose switch models are not, as the run script builds it: after
    construction and incorporation, however [incorporate_processor] ends,
    the start core of slot [i] is switched
    in and runs on timeline [i + 1], with every sub-object of its model on
    timeline 0; the switch core of slot [i] is switched out and its model
    is exactly the model that was passed in. *)
Theorem core_start_timelines
  (cores : list (CoreSwitchableHetProcessor.BaseCPU * CoreSwitchableHetProcessor.BaseCPU))
  (isa : ISA) (s : Heap) (n : nat) (tc : TwoConfig) (w' : World)
  (board : AbstractBoard) (r : exn + MemMode.t) (tc' : TwoConfig) (s2 : Heap) :
  CoreSwitchableHetProcessor.__init__ cores isa (s, n) = (inr tc, w') ->
  CoreSwitchableHetProcessor.incorporate_processor board tc (fst w') = (r, tc', s2) ->
  (forall proc, In proc cores ->
     CoreSwitchableHetProcessor.cpu_kvm (fst proc) = true /\
     CoreSwitchableHetProcessor.cpu_kvm (snd proc) = false) ->
  forall i proc, nth_error cores i = Some proc ->
    timeline s2 (n + i) = i + 1 /\
    switched_out (s2 (n + i)) = false /\
    (forall obj, In obj (sub_objects (get_simobject s2 (n + i))) -> eventq_index obj = 0) /\
    s2 (n + length cores + i)
    = mkCore isa false true (CoreSwitchableHetProcessor.cpu_object (snd proc)).
Proof.
  intros Hi Hinc Hkinds i proc Hp.
  destruct cores as [|proc0 rest] eqn:Hcores; [destruct i; discriminate Hp|].
  rewrite <- Hcores in *.
  destruct (core_init_nonempty cores isa s n proc0 rest Hcores)
    as (tc0 & s1 & Hi0 & Hcur & Hd & _ & _ & _ & _ & Hstore & _).
  rewrite Hi in Hi0. injection Hi0 as <- ->. cbn [fst] in Hinc.
  destruct (core_init_inv _ _ _ _ _ Hi) as (st & sw & s0 & _ & _ & Hbase).
  cbn [fst] in Hbase. pose proof (init_prepare Hbase) as Hprep.
  set (k := length cores) in *.
  assert (Hik : i < k) by (apply nth_error_Some; congruence).
  assert (Hall : SwitchableHetProcessor._all_cores (base tc) = seq n k ++ seq (n + k) k).
  { unfold SwitchableHetProcessor._all_cores. rewrite Hd. cbn. now rewrite app_nil_r. }
  assert (Hnth : forall x, In x (seq n k) -> exists q, nth_error cores (x - n) = Some q).
  { intros x Hx. apply in_seq in Hx.
    destruct (nth_error cores (x - n)) as [q|] eqn:E; [now exists q|].
    apply nth_error_None in E. fold k in E. lia. }
  assert (Hkvm1 : forall x, In x (seq n k) -> is_kvm_core s1 x = true).
  { intros x Hx. destruct (Hnth x Hx) as (q & Hq). apply in_seq in Hx.
    destruct (Hstore _ _ Hq) as (E & _). replace (n + (x - n)) with x in E by lia.
    unfold is_kvm_core. rewrite E. cbn. apply Hkinds. eapply nth_error_In; eassumption. }
  assert (Hkvm2 : forall x, In x (seq (n + k) k) -> is_kvm_core s1 x = false).
  { intros x Hx. apply in_seq in Hx.
    destruct (nth_error cores (x - (n + k))) as [q|] eqn:E.
    - destruct (Hstore _ _ E) as (_ & E2).
      replace (n + k + (x - (n + k))) with x in E2 by lia.
      unfold is_kvm_core. rewrite E2. cbn. apply Hkinds. eapply nth_error_In; eassumption.
    - apply nth_error_None in E. fold k in E. lia. }
  assert (Hfilter : filter (is_kvm_core s1) (SwitchableHetProcessor._all_cores (base tc))
                    = seq n k).
  { rewrite Hall, filter_app, (filter_all _ _ Hkvm1), (filter_none _ _ Hkvm2).
    apply app_nil_r. }
  assert (Hp1 : SwitchableHetProcessor._prepare_kvm (base tc) = true).
  { rewrite Hprep. apply existsb_exists. exists (n + i). split.
    - rewrite Hall. apply in_or_app. left. apply in_seq. lia.
    - apply Hkvm1. apply in_seq. lia. }
  unfold CoreSwitchableHetProcessor.incorporate_processor,
    SwitchableHetProcessor.incorporate_processor in Hinc.
  rewrite Hp1, Hfilter in Hinc. injection Hinc as _ _ <-. unfold enumerate.
  destruct (assign_from (seq n k) 0 s1) as (Hkeep & Hin & _).
  pose proof (assign_from_numbering (seq n k) 0 s1 (seq_NoDup k n)) as Hnum.
  cbn zeta in Hkeep, Hin. unfold handle in *. rewrite length_seq in *.
  cbn [Nat.add] in Hnum.
  destruct (Hstore _ _ Hp) as (E1 & E2).
  split; [|split; [|split]].
  - rewrite (map_seq_nth _ k n 1 Hnum i Hik). lia.
  - destruct (assign_all_frame (combine (seq 0 k) (seq n k)) s1 (n + i)) as (Hfl & _).
    unfold handle in *. rewrite Hfl. now rewrite E1.
  - intros obj Hobj. destruct (Hin (n + i)) as (_ & Hsub); [apply in_seq; lia|].
    now apply Hsub.
  - rewrite Hkeep by (rewrite in_seq; lia).
    rewrite E2. f_equal. apply Hkinds. eapply nth_error_In; eassumption.
Qed.

Lemma core_start_timelines_witness :
  timeline Examples.s_inc (10 + 1) = 1 + 1 /\
  switched_out (Examples.s_inc (10 + 1)) = false /\
  (forall obj, In obj (sub_objects (get_simobject Examples.s_inc (10 + 1))) ->
     eventq_index obj = 0) /\
  Examples.s_inc (10 + length Examples.cpus + 1)
  = mkCore X86 false true (CoreSwitchableHetProcessor.cpu_object (snd (Examples.kvm_cpu, Examples.dummy_cpu))).
Proof.
  apply (core_start_timelines Examples.cpus X86 Examples.heap0 10 Examples.tc_new
           (snd Examples.core_built) Examples.board0 (inr MemMode.ATOMIC_NONCACHING)
           Examples.tc_inc Examples.s_inc eq_refl eq_refl).
  - intros proc Hp. cbn in Hp. destruct Hp as [<-|[<-|[]]]; split; reflexivity.
  - reflexivity.
Defined.

(** ** The run script *)

Lemma add_cores_spec (cls : hetcores.cpu_class) (num : nat) :
  forall (l : list (x86_ubuntu_run.model * x86_ubuntu_run.model)) (n : nat),
  x86_ubuntu_run.add_cores cls num (l, n)
  = (l ++ map (fun i => ((cls, i), (hetcores.DummyCore, i))) (seq n num), n + num).
Proof.
  unfold x86_ubuntu_run.add_cores.
  assert (Hgen : forall k l n,
    fold_left (fun (st : list (x86_ubuntu_run.model * x86_ubuntu_run.model) * nat) (_ : nat) =>
                 (fst st ++ [((cls, snd st), (hetcores.DummyCore, snd st))], S (snd st)))
      (seq k num) (l, n)
    = (l ++ map (fun i => ((cls, i), (hetcores.DummyCore, i))) (seq n num), n + num)).
  { induction num as [|num IH]; intros k l n; cbn [seq fold_left map].
    - now rewrite app_nil_r, Nat.add_0_r.
    - cbn [fst snd]. rewrite IH, <- app_assoc. cbn [app]. f_equal. lia. }
  apply Hgen.
Qed.

Lemma block_classes (cls : hetcores.cpu_class) (n num : nat) :
  map (fun p : x86_ubuntu_run.model * x86_ubuntu_run.model => fst (fst p))
    (map (fun i => ((cls, i), (hetcores.DummyCore, i))) (seq n num))
  = repeat cls num.
Proof.
  rewrite map_map. cbn [fst]. revert n.
  induction num as [|num IH]; intros n; [reflexivity|]. cbn. now rewrite IH.
Qed.

Lemma block_ids (cls : hetcores.cpu_class) (n num : nat) :
  map (fun p : x86_ubuntu_run.model * x86_ubuntu_run.model => snd (fst p))
    (map (fun i => ((cls, i), (hetcores.DummyCore, i))) (seq n num))
  = seq n num.
Proof. rewrite map_map. cbn [fst snd]. apply map_id. Qed.

Lemma block_dummies (cls : hetcores.cpu_class) (n num : nat) :
  map (fun p : x86_ubuntu_run.model * x86_ubuntu_run.model => snd p)
    (map (fun i => ((cls, i), (hetcores.DummyCore, i))) (seq n num))
  = map (fun i => (hetcores.DummyCore, i)) (seq n num).
Proof. rewrite map_map. reflexivity. Qed.

Lemma seq_app0 (a b : nat) : seq 0 a ++ seq a b = seq 0 (a + b).
Proof. now rewrite seq_app. Qed.

(** The six loops of the script, for any six counters: they build one pair
    of models per core; the start models are the big, small, int, fp,
    super-slow and speed-demon KVM models in this order, every switch model
    is a DummyCore, and the two models of slot [i] both have [cpu_id = i];
    [next_id] ends as the number of cores. *)
Theorem build_cores_spec (c : x86_ubuntu_run.core_numbers) :
  let cores := fst (x86_ubuntu_run.build_cores c) in
  let total := x86_ubuntu_run.num_big_cores c + x86_ubuntu_run.num_small_cores c +
               x86_ubuntu_run.num_int_cores c + x86_ubuntu_run.num_fp_cores c +
               x86_ubuntu_run.num_superslow_cores c + x86_ubuntu_run.num_speed_demons c in
  length cores = total /\
  snd (x86_ubuntu_run.build_cores c) = total /\
  map (fun p => fst (fst p)) cores = x86_ubuntu_run.start_classes c /\
  map (fun p => snd (fst p)) cores = seq 0 total /\
  map snd cores = map (fun i => (hetcores.DummyCore, i)) (seq 0 total).
Proof.
  destruct c as [nb ns ni nf nss nsd]. unfold x86_ubuntu_run.build_cores.
  cbn [x86_ubuntu_run.num_big_cores x86_ubuntu_run.num_small_cores
       x86_ubuntu_run.num_int_cores x86_ubuntu_run.num_fp_cores
       x86_ubuntu_run.num_superslow_cores x86_ubuntu_run.num_speed_demons].
  rewrite !add_cores_spec. cbn [fst snd app Nat.add]. cbv zeta.
  split; [|split; [reflexivity|split; [|split]]].
  - rewrite !length_app, !length_map, !length_seq. lia.
  - rewrite !map_app, !block_classes. unfold x86_ubuntu_run.start_classes. cbn.
    now rewrite <- !app_assoc.
  - rewrite !map_app, !block_ids, !seq_app0. reflexivity.
  - rewrite !map_app, !block_dummies, <- !map_app, !seq_app0. reflexivity.
Qed.

Lemma build_cores_spec_witness :
  length (fst (x86_ubuntu_run.build_cores (x86_ubuntu_run.numbers_of 3))) = 7 /\
  map (fun p => snd (fst p)) (fst (x86_ubuntu_run.build_cores (x86_ubuntu_run.numbers_of 3)))
  = [0; 1; 2; 3; 4; 5; 6].
Proof.
  destruct (build_cores_spec (x86_ubuntu_run.numbers_of 3)) as (Hlen & _ & _ & Hids & _).
  split; [exact Hlen | exact Hids].
Defined.

Lemma numbers_of_unknown (system_config : Z) :
  ~ In system_config [0; 1; 2; 3; 4; -1; -2]%Z ->
  x86_ubuntu_run.numbers_of system_config = x86_ubuntu_run.mkNumbers 0 0 0 0 0 0.
Proof.
  intros H. unfold x86_ubuntu_run.numbers_of.
  repeat match goal with
         | |- context [(system_config =? ?v)%Z] =>
             destruct (Z.eqb_spec system_config v) as [->|_];
             [exfalso; apply H; cbn; tauto|]
         end.
  reflexivity.
Qed.

Lemma script_classes (m : x86_ubuntu_run.model * x86_ubuntu_run.model)
  (c : x86_ubuntu_run.core_numbers) :
  In m (fst (x86_ubuntu_run.build_cores c)) ->
  hetcores.parent (fst (fst m)) = hetcores.X86KvmCPU /\
  fst (snd m) = hetcores.DummyCore /\ snd (fst m) = snd (snd m).
Proof.
  destruct c as [nb ns ni nf nss nsd]. unfold x86_ubuntu_run.build_cores.
  cbn [x86_ubuntu_run.num_big_cores x86_ubuntu_run.num_small_cores
       x86_ubuntu_run.num_int_cores x86_ubuntu_run.num_fp_cores
       x86_ubuntu_run.num_superslow_cores x86_ubuntu_run.num_speed_demons].
  rewrite !add_cores_spec. cbn [fst snd app].
  rewrite !in_app_iff, !in_map_iff.
  intros H; repeat destruct H as [H|H]; destruct H as (i & <- & _); cbn; auto.
Qed.

(** The processor of the run script.  For the seven known values of
    SYSTEM_CONFIG the constructor succeeds, with one current core per pair
    of models; every start model is a KVM model and every switch model is
    not, so the start cores are the ones that get timelines of their own.
    For any other value no core is built and the constructor raises
    IndexError, with nothing created. *)
Theorem script_processor
  (object_of : x86_ubuntu_run.model -> SimObject)
  (memory_mode_of : hetcores.cpu_class -> MemMode.t)
  (system_config : Z) (s : Heap) (n : nat) :
  let numbers := x86_ubuntu_run.numbers_of system_config in
  let cores := fst (x86_ubuntu_run.build_cores numbers) in
  (forall m, In m cores ->
     CoreSwitchableHetProcessor.cpu_kvm
       (x86_ubuntu_run.instantiate object_of memory_mode_of (fst m)) = true /\
     CoreSwitchableHetProcessor.cpu_kvm
       (x86_ubuntu_run.instantiate object_of memory_mode_of (snd m)) = false) /\
  (In system_config [0; 1; 2; 3; 4; -1; -2]%Z ->
     cores <> [] /\
     exists tc s',
       x86_ubuntu_run.processor object_of memory_mode_of system_config (s, n)
       = (inr tc, (s', n + 2 * length cores)) /\
       SwitchableHetProcessor.get_num_cores (base tc) = length cores /\
       SwitchableHetProcessor._isa (base tc) = X86) /\
  (~ In system_config [0; 1; 2; 3; 4; -1; -2]%Z ->
     cores = [] /\
     x86_ubuntu_run.processor object_of memory_mode_of system_config (s, n)
     = (inl IndexError, (s, n))).
Proof.
  cbv zeta. split; [|split].
  - intros m Hm. destruct (script_classes m _ Hm) as (Hk & Hd & _).
    unfold x86_ubuntu_run.instantiate. cbn. rewrite Hk, Hd. split; reflexivity.
  - intros Hin.
    assert (Hne : fst (x86_ubuntu_run.build_cores (x86_ubuntu_run.numbers_of system_config))
                  <> []).
    { cbn in Hin. repeat destruct Hin as [<-|Hin]; try discriminate. contradiction. }
    split; [exact Hne|].
    unfold x86_ubuntu_run.processor.
    set (cores := fst (x86_ubuntu_run.build_cores (x86_ubuntu_run.numbers_of system_config)))
      in *.
    destruct cores as [|m0 rest] eqn:E; [congruence|].
    destruct (core_init_nonempty
                (map (fun p => (x86_ubuntu_run.instantiate object_of memory_mode_of (fst p),
                                x86_ubuntu_run.instantiate object_of memory_mode_of (snd p)))
                   (m0 :: rest)) X86 s n _ _ eq_refl)
      as (tc & s' & Hb & Hcur & _ & Hisa & _).
    rewrite length_map in Hb, Hcur.
    exists tc, s'. split; [exact Hb|]. split; [|exact Hisa].
    unfold SwitchableHetProcessor.get_num_cores, SwitchableHetProcessor.get_cores in *.
    rewrite Hcur. apply length_seq.
  - intros Hout. unfold x86_ubuntu_run.processor.
    rewrite (numbers_of_unknown _ Hout). split; reflexivity.
Qed.

Lemma script_processor_witness :
  exists tc s',
    x86_ubuntu_run.processor (fun _ => Examples.leaf) (fun _ => MemMode.ATOMIC_NONCACHING)
      1 (Examples.heap0, 10)
    = (inr tc, (s', 10 + 2 * 6)) /\
    SwitchableHetProcessor.get_num_cores (base tc) = 6 /\
    SwitchableHetProcessor._isa (base tc) = X86.
Proof.
  destruct (script_processor (fun _ => Examples.leaf) (fun _ => MemMode.ATOMIC_NONCACHING)
              1 Examples.heap0 10) as (_ & Hknown & _).
  destruct Hknown as (_ & Hok); [cbn; auto|]. exact Hok.
Defined.

(** ** The CPUID signatures of hetcores.py *)

(** For every stepping that fits the four-bit stepping field, as all
    [CoreSteppings] do, the first word of [FamilyModelStepping] carries the
    stepping in its low four bits under the unchanged type/family/model
    bits of [0x00020F50], and the four words fit [UInt32]: two ISA classes
    with different steppings have different signatures, and the stepping
    can be read back from the signature. *)
Theorem family_model_stepping (stepping : Z) :
  (0 <= stepping < 16)%Z ->
  exists eax,
    hetcores.FamilyModelStepping stepping = [eax; 0x00000805; 0xEFDBFBFF; 0x00000209]%Z /\
    Z.land eax 0xF = stepping /\
    Z.shiftr eax 4 = Z.shiftr 0x00020F50 4 /\
    Forall (fun w => 0 <= w < 2 ^ 32)%Z (hetcores.FamilyModelStepping stepping).
Proof.
  intros H. exists (Z.lor 0x00020F50 stepping). split; [reflexivity|].
  assert (Hcases : In stepping [0; 1; 2; 3; 4; 5; 6; 7; 8; 9; 10; 11; 12; 13; 14; 15]%Z).
  { cbn. lia. }
  cbn in Hcases.
  repeat (destruct Hcases as [<-|Hcases];
          [split; [reflexivity|]; split; [reflexivity|];
           repeat constructor; cbn; lia|]).
  contradiction.
Qed.

Lemma family_model_stepping_witness :
  exists eax,
    hetcores.BigCoreISA = [eax; 0x00000805; 0xEFDBFBFF; 0x00000209]%Z /\
    Z.land eax 0xF = hetcores.CoreSteppings.BigCore /\
    Z.shiftr eax 4 = Z.shiftr 0x00020F50 4 /\
    Forall (fun w => 0 <= w < 2 ^ 32)%Z hetcores.BigCoreISA.
Proof.
  apply (family_model_stepping hetcores.CoreSteppings.BigCore).
  unfold hetcores.CoreSteppings.BigCore. lia.
Defined.

(** ** Incorporation of the two-configuration classes *)

(** [incorporate_processor] of both two-configuration classes incorporates
    the base-class part exactly as the base class does and changes nothing
    else of the object: the keys, [_current_is_start] and the memory mode
    stay as they are.  On a board with Ruby caches and with the memory mode
    ATOMIC the call raises NameError, at the call of [warn], after the
    base-class part has been incorporated: the memory mode never becomes
    ATOMIC_NONCACHING and the board is not given a memory mode.  In every
    other case the call returns and has given the board the memory mode of
    the processor. *)
Theorem two_config_incorporate (cls : two_config_class) (board : AbstractBoard)
  (tc : TwoConfig) (s : Heap) (r : exn + MemMode.t) (tc' : TwoConfig) (s' : Heap) :
  (match cls with
   | SimpleClass => SimpleSwitchableHetProcessor.incorporate_processor
   | CoreClass => CoreSwitchableHetProcessor.incorporate_processor
   end) board tc s = (r, tc', s') ->
  SwitchableHetProcessor.incorporate_processor board (base tc) s = (base tc', s') /\
  _start_key tc' = _start_key tc /\ _switch_key tc' = _switch_key tc /\
  _current_is_start tc' = _current_is_start tc /\
  _mem_mode tc' = _mem_mode tc /\
  (is_ruby board = true -> _mem_mode tc = MemMode.ATOMIC -> r = inl (NameError "warn")) /\
  (is_ruby board = false \/ _mem_mode tc <> MemMode.ATOMIC -> r = inr (_mem_mode tc)).
Proof.
  intros H.
  assert (H' : CoreSwitchableHetProcessor.incorporate_processor board tc s = (r, tc', s'))
    by (destruct cls; exact H).
  clear H. unfold CoreSwitchableHetProcessor.incorporate_processor in H'.
  destruct (SwitchableHetProcessor.incorporate_processor board (base tc) s) as [b s1].
  injection H' as <- <- <-. cbn. unfold negotiate_mem_mode.
  repeat split; try reflexivity.
  - intros Hr Hm. now rewrite Hr, Hm.
  - intros [Hr|Hm]; [now rewrite Hr|].
    destruct (is_ruby board); [|reflexivity]. destruct (_mem_mode tc); cbn; congruence.
Qed.

Lemma two_config_incorporate_witness :
  SwitchableHetProcessor.incorporate_processor Examples.ruby_board
    (base (mkTwoConfig Examples.proc_new "start" "switch" true MemMode.ATOMIC))
    Examples.heap_new
  = (attached Examples.ruby_board Examples.proc_new,
     snd (SwitchableHetProcessor.incorporate_processor Examples.ruby_board
            Examples.proc_new Examples.heap_new)) /\
  fst (fst (CoreSwitchableHetProcessor.incorporate_processor Examples.ruby_board
              (mkTwoConfig Examples.proc_new "start" "switch" true MemMode.ATOMIC)
              Examples.heap_new))
  = inl (NameError "warn").
Proof.
  destruct (two_config_incorporate CoreClass Examples.ruby_board
              (mkTwoConfig Examples.proc_new "start" "switch" true MemMode.ATOMIC)
              Examples.heap_new _ _ _ eq_refl)
    as (Hb & _ & _ & _ & _ & Hr & _).
  split; [exact Hb|]. exact (Hr eq_refl eq_refl).
Defined.
